(** * tesseract_trainer: a shallow embedding of the page layout engine and of
      the training pipeline of [tesseract_trainer/__init__.py].

    Python integers are unbounded, so every coordinate, size and page number
    is a [Z].  Python strings are [string]s (sequences of 8-bit characters).
    Console output ([print], gated by [verbose]) is not part of the model. *)

From Stdlib Require Import ZArith Ascii String DecimalString DecimalPos DecimalZ Sorted Lia.
From stdpp Require Import base option list gmap strings.

Local Open Scope Z_scope.
Local Open Scope string_scope.

(** ** The Python builtins the module relies on *)

Module Py.

(** [str(n)] and ['%d' % n] of an integer. *)
Definition str (n : Z) : string := NilZero.string_of_int (Z.to_int n).

(** [len(s)]. *)
Definition len (s : string) : Z := Z.of_nat (String.length s).

(** [c in s] for a one-character string [c]. *)
Fixpoint contains (c : ascii) (s : string) : bool :=
  match s with
  | EmptyString => false
  | String a s' => Ascii.eqb a c || contains c s'
  end.

(** [s.split(sep)] with a one-character separator: empty fields are kept,
    and the empty string splits into one empty field. *)
Fixpoint split (sep : ascii) (s : string) : list string :=
  match s with
  | EmptyString => [EmptyString]
  | String a s' =>
      if Ascii.eqb a sep then EmptyString :: split sep s'
      else match split sep s' with
           | w :: ws => String a w :: ws
           | [] => [String a EmptyString]
           end
  end.

(** The characters of [string.whitespace]: space, tab, newline, vertical
    tab, form feed and carriage return. *)
Definition isspace (a : ascii) : bool :=
  let n := N_of_ascii a in
  (((9 <=? n) && (n <=? 13)) || (n =? 32))%N.

(** [s.split()] without argument: fields are maximal runs of characters
    that are not whitespace; no empty field is produced. *)
Fixpoint split_ws (s : string) : list string :=
  match s with
  | EmptyString => []
  | String a s' =>
      if isspace a then split_ws s'
      else match s' with
           | EmptyString => [String a EmptyString]
           | String b _ =>
               if isspace b then String a EmptyString :: split_ws s'
               else match split_ws s' with
                    | w :: ws => String a w :: ws
                    | [] => [String a EmptyString]
                    end
           end
  end.

(** [s.replace(old, new)] for one-character [old] and [new]. *)
Fixpoint replace (old new : ascii) (s : string) : string :=
  match s with
  | EmptyString => EmptyString
  | String a s' => String (if Ascii.eqb a old then new else a) (replace old new s')
  end.

(** [sep.join(l)]. *)
Fixpoint join (sep : string) (l : list string) : string :=
  match l with
  | [] => EmptyString
  | [w] => w
  | w :: ws => w ++ sep ++ join sep ws
  end.

(** Arguments of the [%] string formatting operator. *)
Inductive value : Type :=
| VStr (s : string)
| VInt (n : Z).

(** [fmt % args] for format strings made of literal text, [%s] and [%d].
    [None] stands for the [TypeError] raised on a missing or superfluous
    argument, on [%d] applied to a string, or on an unsupported
    directive. *)
Fixpoint format (fmt : string) (args : list value) : option string :=
  match fmt with
  | EmptyString => match args with [] => Some EmptyString | _ => None end
  | String a fmt' =>
      if Ascii.eqb a "%" then
        match fmt' with
        | String d fmt'' =>
            if Ascii.eqb d "s" then
              match args with
              | VStr s :: args' => option_map (append s) (format fmt'' args')
              | VInt n :: args' => option_map (append (str n)) (format fmt'' args')
              | [] => None
              end
            else if Ascii.eqb d "d" then
              match args with
              | VInt n :: args' => option_map (append (str n)) (format fmt'' args')
              | _ => None
              end
            else None
        | EmptyString => None
        end
      else option_map (String a) (format fmt' args)
  end.

End Py.

(** ** Utility functions *)

(** [word_fits_in_line(pagewidth, x_pos, wordsize_w)] *)
Definition word_fits_in_line (pagewidth x_pos wordsize_w : Z) : bool :=
  (pagewidth - x_pos - wordsize_w) >? 0.

(** [newline_fits_in_page(pageheight, y_pos, wordsize_h)] *)
Definition newline_fits_in_page (pageheight y_pos wordsize_h : Z) : bool :=
  (pageheight - y_pos - (2 * wordsize_h)) >? 0.

(** [pil_coord_to_tesseract(pil_x, pil_y, tif_h)] *)
Definition pil_coord_to_tesseract (pil_x pil_y tif_h : Z) : Z * Z :=
  (pil_x, tif_h - pil_y).

(** ** MultiPageTif: the page layout engine *)

Section MultiPageTif.

(** The font object returned by [ImageFont.truetype(font_path, fontsize)] and
    its [getsize] method belong to the imaging library; the layout is
    parametric in them. *)
Context {Font : Type}.
Variable truetype : string -> Z -> Font.
Variable getsize : Font -> string -> Z * Z.

(** One [draw.text((x, y), char, fill="black", font=font)] call. *)
Record drawn_text : Type := DrawText {
  dt_x : Z;
  dt_y : Z;
  dt_char : ascii;
  dt_fill : string;
  dt_font : Font
}.

(** A greyscale image: [Image.new("L", (W, H), color)] and what has been
    drawn on it since, in drawing order. *)
Record image : Type := Image {
  im_size : Z * Z;
  im_color : string;
  im_drawn : list drawn_text
}.

(** Files written by [tif.save], in writing order (the order that
    [os.path.getmtime] recovers in [_multipage_tif]). *)
Definition storage : Type := list (string * image).

(** The attributes of a [MultiPageTif] object. *)
Record MultiPageTif : Type := {
  W : Z;
  H : Z;
  start_x : Z;
  start_y : Z;
  text : list string;
  font : Font;
  font_name : string;
  dictionary_name : string;
  prefix : string;
  boxlines : list string;
  indiv_page_prefix : string;
  verbose : bool
}.

(** [MultiPageTif.__init__] *)
Definition MultiPageTif_init (text : string) (W H start_x start_y : Z)
    (font_name font_path : string) (fontsize exp_number : Z)
    (dictionary_name : string) (verbose : bool) : MultiPageTif :=
  {| W := W;
     H := H;
     start_x := start_x;
     start_y := start_y;
     text := Py.split " " text;
     font := truetype font_path fontsize;
     font_name := font_name;
     dictionary_name := dictionary_name;
     prefix := Py.join "." [dictionary_name; font_name; "exp" ++ Py.str exp_number];
     boxlines := [];
     indiv_page_prefix := "page";
     verbose := verbose |}.

(** Assignment to [self.boxlines]; the other attributes are never
    reassigned after [__init__]. *)
Definition set_boxlines (self : MultiPageTif) (lines : list string) : MultiPageTif :=
  {| W := W self;
     H := H self;
     start_x := start_x self;
     start_y := start_y self;
     text := text self;
     font := font self;
     font_name := font_name self;
     dictionary_name := dictionary_name self;
     prefix := prefix self;
     boxlines := lines;
     indiv_page_prefix := indiv_page_prefix self;
     verbose := verbose self |}.

(** [self.boxlines.append(boxline)] *)
Definition append_boxline (self : MultiPageTif) (boxline : string) : MultiPageTif :=
  set_boxlines self (boxlines self ++ [boxline]).

(** [MultiPageTif._new_tif] *)
Definition _new_tif (self : MultiPageTif) (color : string) : image :=
  Image (W self, H self) color [].

(** [MultiPageTif._save_tif] *)
Definition _save_tif (self : MultiPageTif) (tif : image) (page_number : Z)
    (disk : storage) : storage :=
  let path := indiv_page_prefix self ++ Py.str page_number ++ ".tif" in
  (disk ++ [(path, tif)])%list.

(** [draw.text((x, y), char, fill="black", font=font)] on the image [tif]. *)
Definition draw_text (tif : image) (x y : Z) (char : ascii) (fill : string)
    (fnt : Font) : image :=
  Image (im_size tif) (im_color tif) (im_drawn tif ++ [DrawText x y char fill fnt])%list.

(** ['%s %d %d %d %d %d' % (char, a, b, c, d, page_nb)] *)
Definition boxline_format (char : ascii) (a b c d page_nb : Z) : string :=
  String char "" ++ " " ++ Py.str a ++ " " ++ Py.str b ++ " " ++ Py.str c
    ++ " " ++ Py.str d ++ " " ++ Py.str page_nb.

(** [MultiPageTif._write_boxline] *)
Definition _write_boxline (self : MultiPageTif) (char : ascii)
    (char_x0 char_y0 char_x1 char_y1 page_nb : Z) : MultiPageTif :=
  let tess_char_x0 := fst (pil_coord_to_tesseract char_x0 char_y0 (H self)) in
  let tess_char_y0 := snd (pil_coord_to_tesseract char_x0 char_y0 (H self)) in
  let tess_char_x1 := fst (pil_coord_to_tesseract char_x1 char_y1 (H self)) in
  let tess_char_y1 := snd (pil_coord_to_tesseract char_x1 char_y1 (H self)) in
  let boxline :=
    boxline_format char tess_char_x0 tess_char_y1 tess_char_x1 tess_char_y0 page_nb in
  append_boxline self boxline.

(** The object, the local variables of [_fill_pages] and the files saved so
    far. *)
Record fill_state : Type := FillState {
  self : MultiPageTif;
  tif : image;
  page_nb : Z;
  x_pos : Z;
  y_pos : Z;
  disk : storage
}.

(** Body of [for char in word] in [_fill_pages]. *)
Definition fill_char (st : fill_state) (char : ascii) : fill_state :=
  let char_w := fst (getsize (font (self st)) (String char "")) in
  let char_h := snd (getsize (font (self st)) (String char "")) in
  let char_w := 28 in
  let char_h := 28 in
  let char_x0 := x_pos st in
  let char_y0 := y_pos st in
  let char_x1 := x_pos st + char_w in
  let char_y1 := y_pos st + char_h in
  let tif' := draw_text (tif st) (x_pos st) (y_pos st) char "black" (font (self st)) in
  let self' :=
    if negb (Ascii.eqb char " ") then
      _write_boxline (self st) char char_x0 char_y0 char_x1 char_y1 (page_nb st)
    else self st in
  FillState self' tif' (page_nb st) (x_pos st + char_w) (y_pos st) (disk st).

(** The line and page break decision at the head of the body of
    [for word in self.text]; [word] already carries its trailing space. *)
Definition fill_break (st : fill_state) (word : string) : fill_state :=
  let wordsize_w := fst (getsize (font (self st)) word) in
  let wordsize_h := snd (getsize (font (self st)) word) in
  let wordsize_w := Py.len word * 28 in
  let wordsize_h := 28 in
  if negb (word_fits_in_line (W (self st)) (x_pos st) wordsize_w) then
    if newline_fits_in_page (H (self st)) (y_pos st) wordsize_h then
      FillState (self st) (tif st) (page_nb st)
        (start_x (self st)) (y_pos st + wordsize_h) (disk st)
    else
      FillState (self st) (_new_tif (self st) "white") (page_nb st + 1)
        (start_x (self st)) (start_y (self st))
        (_save_tif (self st) (tif st) (page_nb st) (disk st))
  else st.

(** Body of [for word in self.text] in [_fill_pages]. *)
Definition fill_word (st : fill_state) (word : string) : fill_state :=
  let word := word ++ " " in
  fold_left fill_char (list_ascii_of_string word) (fill_break st word).

(** The state of [_fill_pages] when it leaves its loop over the words. *)
Definition fill_loop (self : MultiPageTif) (disk : storage) : fill_state :=
  fold_left fill_word (text self)
    (FillState self (_new_tif self "white") 0 (start_x self) (start_y self) disk).

(** [MultiPageTif._fill_pages]: the updated object and the files on disk. *)
Definition _fill_pages (self0 : MultiPageTif) (disk0 : storage)
    : MultiPageTif * storage :=
  let st := fill_loop self0 disk0 in
  (self st, _save_tif (self st) (tif st) (page_nb st) (disk st)).

(** [boxfile_path] in [MultiPageTif.generate_boxfile] *)
Definition boxfile_path (self : MultiPageTif) : string := prefix self ++ ".box".

(** [MultiPageTif.generate_boxfile]: the path of the box file and the text
    written to it, one [boxfile.write(boxline + '\n')] per element of
    [self.boxlines]. *)
Definition generate_boxfile (self : MultiPageTif) : string * string :=
  (boxfile_path self,
   fold_left (fun written boxline => written ++ (boxline ++ String "010" ""))
     (boxlines self) "").

End MultiPageTif.

(** ** TesseractTrainer: configuration checks, dictionary stage and cleanup *)

(** The exceptions the trainer raises or lets escape. *)
Inductive exn : Type :=
| SystemExit (message : string)
| IOError (path : string)
| OSError (path : string).

(** The calls that act on the world outside the process. *)
Inductive syscall : Type :=
| Popen (cmd : string)
| Remove (path : string).

(** The working environment: regular files with their contents, directories,
    and the calls made so far, oldest first. *)
Record world : Type := World {
  files : gmap string string;
  dirs : gset string;
  trace : list syscall
}.

(** Computations that read and change the world and may raise. *)
Definition M (A : Type) : Type := world -> (exn + A) * world.

Definition ret {A : Type} (a : A) : M A := fun w => (inr a, w).

Definition raise {A : Type} (e : exn) : M A := fun w => (inl e, w).

Definition bind {A B : Type} (m : M A) (k : A -> M B) : M B :=
  fun w =>
    match m w with
    | (inr a, w') => k a w'
    | (inl e, w') => (inl e, w')
    end.

Notation "x <- m ;; k" := (bind m (fun x => k))
  (at level 62, m at next level, right associativity).
Notation "m ;;; k" := (bind m (fun _ => k))
  (at level 62, right associativity).

(** [open(path).read()] *)
Definition open_read (path : string) : M string :=
  fun w =>
    match files w !! path with
    | Some contents => (inr contents, w)
    | None => (inl (IOError path), w)
    end.

(** Whether [path] names a file or a directory of [w]. *)
Definition path_exists (w : world) (path : string) : bool :=
  bool_decide (is_Some (files w !! path)) || bool_decide (path ∈ dirs w).

(** [os.path.exists(path)] *)
Definition exists_ (path : string) : M bool :=
  fun w => (inr (path_exists w path), w).

(** [os.remove(path)] *)
Definition os_remove (path : string) : M unit :=
  fun w =>
    let tr := (trace w ++ [Remove path])%list in
    match files w !! path with
    | Some _ => (inr tt, World (delete path (files w)) (dirs w) tr)
    | None => (inl (OSError path), World (files w) (dirs w) tr)
    end.

Section TesseractTrainer.

(** What running a command line through the shell does to the files: the
    external training tools are not part of this program. *)
Variable shell : string -> gmap string string -> gmap string string.


(** The attributes of a [TesseractTrainer] object. *)
Record TesseractTrainer : Type := {
  training_text : string;
  tt_exp_number : Z;
  tt_dictionary_name : string;
  tt_font_name : string;
  font_path : string;
  font_size : Z;
  tt_prefix : string;
  font_properties : string;
  tessdata_path : string;
  word_list : option string;
  tt_verbose : bool
}.

(** Truth value of [self.word_list]: [None] and the empty string are false. *)
Definition word_list_given (word_list : option string) : bool :=
  match word_list with
  | None => false
  | Some EmptyString => false
  | Some (String _ _) => true
  end.


(** ['%s.%s.exp%s' % (dictionary_name, font_name, str(exp_number))] *)
Definition trainer_prefix (dictionary_name font_name : string) (exp_number : Z) : string :=
  dictionary_name ++ "." ++ font_name ++ ".exp" ++ Py.str exp_number.

(** The messages of the four [SystemExit]s of [__init__]. *)
Definition msg_font_name_spaces : string :=
  "The --font-name / -F argument must not contain any spaces. Aborting.".

Definition msg_no_font_file (font_path : string) : string :=
  "The " ++ font_path ++ " file does not exist. Aborting.".

Definition msg_font_not_defined (font_name font_properties : string) : string :=
  "The font properties of " ++ font_name ++ " have not been defined in "
    ++ font_properties ++ ". Aborting.".

Definition msg_no_tessdata (tessdata_path : string) : string :=
  "The " ++ tessdata_path ++ " directory does not exist. Aborting.".

(** [TesseractTrainer.__init__] *)
Definition TesseractTrainer_init (dictionary_name text font_name font_path
    font_properties : string) (font_size exp_number : Z) (tessdata_path : string)
    (word_list : option string) (verbose : bool) : M TesseractTrainer :=
  contents <- open_read text ;;
  let training_text := Py.replace "010" " " contents in
  if Py.contains " " font_name then
    raise (SystemExit msg_font_name_spaces)
  else
  font_found <- exists_ font_path ;;
  if negb font_found then
    raise (SystemExit (msg_no_font_file font_path))
  else
  let prefix := trainer_prefix dictionary_name font_name exp_number in
  fp <- open_read font_properties ;;
  if negb (bool_decide (font_name ∈ Py.split_ws fp)) then
    raise (SystemExit (msg_font_not_defined font_name font_properties))
  else
  tessdata_found <- exists_ tessdata_path ;;
  if negb tessdata_found then
    raise (SystemExit (msg_no_tessdata tessdata_path))
  else
  ret {| training_text := training_text;
         tt_exp_number := exp_number;
         tt_dictionary_name := dictionary_name;
         tt_font_name := font_name;
         font_path := font_path;
         font_size := font_size;
         tt_prefix := prefix;
         font_properties := font_properties;
         tessdata_path := tessdata_path;
         word_list := word_list;
         tt_verbose := verbose |}.

(** The [MultiPageTif] object that [TesseractTrainer._generate_boxfile]
    builds. *)
Definition _generate_boxfile_mp {Font : Type} (truetype : string -> Z -> Font)
    (self : TesseractTrainer) : @MultiPageTif Font :=
  MultiPageTif_init truetype (training_text self) 3500 1024 20 20 (tt_font_name self)
    (font_path self) (font_size self) (tt_exp_number self) (tt_dictionary_name self)
    (tt_verbose self).


(** [TesseractTrainer.clean] *)
Definition clean (self : TesseractTrainer) : M unit :=
  os_remove (tt_prefix self ++ ".tr") ;;;
  os_remove (tt_prefix self ++ ".txt") ;;;
  os_remove (tt_prefix self ++ ".box") ;;;
  os_remove (tt_dictionary_name self ++ ".inttemp") ;;;
  os_remove (tt_dictionary_name self ++ ".Microfeat") ;;;
  os_remove (tt_dictionary_name self ++ ".normproto") ;;;
  os_remove (tt_dictionary_name self ++ ".pffmtable") ;;;
  os_remove (tt_dictionary_name self ++ ".unicharset") ;;;
  (if word_list_given (word_list self) then
     os_remove (tt_dictionary_name self ++ ".freq-dawg")
   else ret tt) ;;;
  os_remove "mfunicharset".

End TesseractTrainer.

(** A working directory that is ready for a training run: the training
    text, the font file, the font properties registry and the tessdata
    directory are there. *)
Definition ready_world : world :=
  World
    (<["text.txt" := "AB CD"]>
       (<["helvetica.ttf" := ""]>
          (<["font_properties" := "helvetica 0 0 0 0 0"]> ∅)))
    {["/usr/share/tessdata"]}
    [].

(** The trainer that [__init__] returns in [ready_world] for the dictionary
    [eng] and the font [helvetica], with the word list [word_list]. *)
Definition ready_trainer (word_list : option string) : TesseractTrainer :=
  {| training_text := "AB CD";
     tt_exp_number := 0;
     tt_dictionary_name := "eng";
     tt_font_name := "helvetica";
     font_path := "helvetica.ttf";
     font_size := 25;
     tt_prefix := "eng.helvetica.exp0";
     font_properties := "font_properties";
     tessdata_path := "/usr/share/tessdata";
     word_list := word_list;
     tt_verbose := true |}.

(** A working directory after a training run with a word list: every file
    that [clean] removes is there. *)
Definition trained_world : world :=
  World
    (list_to_map
       (map (fun path => (path, ""))
          ["eng.helvetica.exp0.tr"; "eng.helvetica.exp0.txt"; "eng.helvetica.exp0.box";
           "eng.inttemp"; "eng.Microfeat"; "eng.normproto"; "eng.pffmtable";
           "eng.unicharset"; "eng.freq-dawg"; "mfunicharset"; "eng.traineddata"]))
    ∅
    [].


(** [n] space characters. *)
Fixpoint spaces (n : nat) : string :=
  match n with
  | O => ""
  | S n' => String " " (spaces n')
  end.

(** Whether a string has a whitespace character in it. *)
Definition has_whitespace (s : string) : bool :=
  existsb Py.isspace (list_ascii_of_string s).

(** Removing the files [paths] one after the other, stopping at the first
    failure. *)
Definition remove_all (paths : list string) : M unit :=
  foldr (fun path rest => os_remove path ;;; rest) (ret tt) paths.

(** The files that [clean] removes before it looks at the word list. *)
Definition clean_first (self : TesseractTrainer) : list string :=
  [tt_prefix self ++ ".tr"; tt_prefix self ++ ".txt"; tt_prefix self ++ ".box";
   tt_dictionary_name self ++ ".inttemp"; tt_dictionary_name self ++ ".Microfeat";
   tt_dictionary_name self ++ ".normproto"; tt_dictionary_name self ++ ".pffmtable";
   tt_dictionary_name self ++ ".unicharset"].

(** The dictionary file of the [wordlist2dawg] stage. *)
Definition freq_dawg (self : TesseractTrainer) : string :=
  tt_dictionary_name self ++ ".freq-dawg".

(** ** Reading box lines back, and what the layout emits *)

(** The six fields of a box line. *)
Record box : Type := Box {
  b_char : ascii;
  b_x0 : Z;
  b_y0 : Z;
  b_x1 : Z;
  b_y1 : Z;
  b_page : Z
}.

(** The line that carries the fields of [b]. *)
Definition render (b : box) : string :=
  boxline_format (b_char b) (b_x0 b) (b_y0 b) (b_x1 b) (b_y1 b) (b_page b).

(** Reading a decimal integer. *)
Definition parse_int (s : string) : option Z :=
  option_map Z.of_int (NilZero.int_of_string s).

(** Reading a box line: one character, a space, then five integers
    separated by single spaces. *)
Definition parse_boxline (line : string) : option box :=
  match line with
  | String c (String sp rest) =>
      if Ascii.eqb sp " " then
        match Py.split " " rest with
        | [f0; f1; f2; f3; f4] =>
            x0 ← parse_int f0; y0 ← parse_int f1; x1 ← parse_int f2;
            y1 ← parse_int f3; page ← parse_int f4;
            Some (Box c x0 y0 x1 y1 page)
        | _ => None
        end
      else None
  | _ => None
  end.

(** The characters of [s] that are not the space character, in order. *)
Definition nonspace_chars (s : string) : list ascii :=
  filter (fun c => Ascii.eqb c " " = false) (list_ascii_of_string s).

(** The characters of [s] that are not whitespace, in order. *)
Definition nonwhitespace_chars (s : string) : list ascii :=
  filter (fun c => Py.isspace c = false) (list_ascii_of_string s).

(** A box whose corners are the images under [pil_coord_to_tesseract] of the
    top-left corner [(x, y)] and of the bottom-right corner
    [(x + 28, y + 28)] of a glyph drawn on a page [page_height] high:
    left [x], bottom [page_height - (y + 28)], right [x + 28], top
    [page_height - y]. *)
Definition glyph_box (page_height : Z) (b : box) : Prop :=
  exists x y : Z,
    (b_x0 b, b_y1 b) = pil_coord_to_tesseract x y page_height
    /\ (b_x1 b, b_y0 b) = pil_coord_to_tesseract (x + 28) (y + 28) page_height.

Section Emitted.

Context {Font : Type}.
Variable getsize : Font -> string -> Z * Z.

(** The box that [fill_char] records for [char] in state [st], if any. *)
Definition char_box (st : @fill_state Font) (char : ascii) : list box :=
  if Ascii.eqb char " " then []
  else
    let tl := pil_coord_to_tesseract (x_pos st) (y_pos st) (H (self st)) in
    let br := pil_coord_to_tesseract (x_pos st + 28) (y_pos st + 28) (H (self st)) in
    [Box char (fst tl) (snd br) (fst br) (snd tl) (page_nb st)].

(** The boxes recorded while the characters [chars] are written from [st]. *)
Fixpoint chars_boxes (st : @fill_state Font) (chars : list ascii) : list box :=
  match chars with
  | [] => []
  | c :: chars' => char_box st c ++ chars_boxes (fill_char getsize st c) chars'
  end.

(** The boxes recorded while the words [words] are laid out from [st]. *)
Fixpoint words_boxes (st : @fill_state Font) (words : list string) : list box :=
  match words with
  | [] => []
  | w :: words' =>
      chars_boxes (fill_break getsize st (w ++ " ")) (list_ascii_of_string (w ++ " "))
        ++ words_boxes (fill_word getsize st w) words'
  end.

End Emitted.

(** Forgetting which font was used: the same object, images and state with
    the trivial font. *)
Definition forget_self {Font : Type} (s : @MultiPageTif Font) : @MultiPageTif unit :=
  {| W := W s;
     H := H s;
     start_x := start_x s;
     start_y := start_y s;
     text := text s;
     font := tt;
     font_name := font_name s;
     dictionary_name := dictionary_name s;
     prefix := prefix s;
     boxlines := boxlines s;
     indiv_page_prefix := indiv_page_prefix s;
     verbose := verbose s |}.

Definition forget_image {Font : Type} (im : @image Font) : @image unit :=
  Image (im_size im) (im_color im)
    (map (fun d => DrawText (dt_x d) (dt_y d) (dt_char d) (dt_fill d) tt) (im_drawn im)).

Definition forget_disk {Font : Type} (d : @storage Font) : @storage unit :=
  map (fun f => (fst f, forget_image (snd f))) d.

Definition forget_state {Font : Type} (st : @fill_state Font) : @fill_state unit :=
  FillState (forget_self (self st)) (forget_image (tif st)) (page_nb st)
    (x_pos st) (y_pos st) (forget_disk (disk st)).

(** The measurement of the trivial font. *)
Definition no_getsize (f : unit) (s : string) : Z * Z := (0, 0).

(** ** Further observations on the layout *)



(** The boxes of the characters [chars] set side by side from [(x, y)] on
    page [p], each 28 wide, spaces leaving a gap. *)
Fixpoint line_boxes (h p x y : Z) (chars : list ascii) : list box :=
  match chars with
  | [] => []
  | c :: chars' =>
      (if Ascii.eqb c " " then []
       else [Box c x (h - (y + 28)) (x + 28) (h - y) p])
      ++ line_boxes h p (x + 28) y chars'
  end.

(** Everything drawn on the images of [d], in file order. *)
Definition drawn_on {Font : Type} (d : @storage Font) : list (@drawn_text Font) :=
  concat (map (fun f => im_drawn (snd f)) d).

(** The box of a glyph drawn on the page of index [i], [h] high; none for a
    space. *)
Definition box_of_drawn {Font : Type} (h : Z) (i : nat) (g : @drawn_text Font)
    : option box :=
  if Ascii.eqb (dt_char g) " " then None
  else Some (Box (dt_char g) (dt_x g) (h - (dt_y g + 28)) (dt_x g + 28)
               (h - dt_y g) (Z.of_nat i)).

(** The boxes of the glyphs of the images of [d], the [i]-th image being
    the page of index [i]. *)
Definition boxes_of_pages {Font : Type} (h : Z) (d : @storage Font) : list box :=
  concat (imap (fun i f => omap (box_of_drawn h i) (im_drawn (snd f))) d).

(** The name under which [_save_tif] saves page [i] of an object whose
    [indiv_page_prefix] is ["page"]. *)
Definition page_name (i : nat) : string := "page" ++ Py.str (Z.of_nat i) ++ ".tif".

(** Two layout states, possibly with different fonts, that agree on the
    page geometry and on the cursor. *)
Definition same_layout {F1 F2 : Type} (st : @fill_state F1) (st' : @fill_state F2)
    : Prop :=
  W (self st) = W (self st') /\ H (self st) = H (self st')
  /\ start_x (self st) = start_x (self st') /\ start_y (self st) = start_y (self st')
  /\ page_nb st = page_nb st' /\ x_pos st = x_pos st' /\ y_pos st = y_pos st'.

(** ** MultiPageTif._clean *)

(** [glob.glob(prefix + '*')] for a prefix without pattern characters, as
    ["page"] is: the files and directories of the working directory whose
    name starts with [prefix].  Python returns them in the order of the
    directory listing, which is not specified; the order here is that of
    [elements]. *)
Definition glob_prefix (prefix : string) (w : world) : list string :=
  filter (fun path => String.prefix prefix path = true /\ Py.contains "/" path = false)
    (elements (dom (files w) ∪ dirs w)).

(** [MultiPageTif._clean] *)
Definition _clean {Font : Type} (self : @MultiPageTif Font) : M unit :=
  fun w => remove_all (glob_prefix (indiv_page_prefix self) w) w.

(** * Properties *)

#[local] Arguments String.append !_ _ : simpl nomatch.

(** ** Python strings *)

Section PyFacts.

Import Py.

Lemma append_assoc (a b c : string) : (a ++ b) ++ c = a ++ (b ++ c).
Proof. induction a as [|x a IH]; simpl; [reflexivity | now rewrite IH]. Qed.

Lemma append_nil_r (a : string) : a ++ "" = a.
Proof. induction a as [|x a IH]; simpl; [reflexivity | now rewrite IH]. Qed.

Lemma chars_append (a b : string) :
  list_ascii_of_string (a ++ b)
  = (list_ascii_of_string a ++ list_ascii_of_string b)%list.
Proof. induction a as [|x a IH]; simpl; [reflexivity | now rewrite IH]. Qed.

Lemma split_not_nil (sep : ascii) (s : string) : split sep s <> [].
Proof.
  induction s as [|x s IH]; simpl; [discriminate |].
  destruct (Ascii.eqb x sep); [discriminate |].
  destruct (split sep s); [contradiction | discriminate].
Qed.

(** A string without separator is a single field. *)
Lemma split_no_sep (sep : ascii) (s : string) :
  contains sep s = false -> split sep s = [s].
Proof.
  induction s as [|x s IH]; simpl; [reflexivity |].
  intros Hc. apply orb_false_iff in Hc as [Hx Hs].
  rewrite Hx, (IH Hs). reflexivity.
Qed.

(** The first separator ends the first field. *)
Lemma split_append_sep (sep : ascii) (a b : string) :
  contains sep a = false -> split sep (a ++ String sep b) = a :: split sep b.
Proof.
  induction a as [|x a IH]; simpl.
  - intros _. now rewrite Ascii.eqb_refl.
  - intros Hc. apply orb_false_iff in Hc as [Hx Ha].
    rewrite Hx, (IH Ha). reflexivity.
Qed.

Lemma split_append_field (sep : ascii) (a b : string) :
  contains sep a = false ->
  split sep (a ++ String sep "" ++ b) = a :: split sep b.
Proof. exact (split_append_sep sep a b). Qed.

Lemma uint_no_space (d : Decimal.uint) :
  contains " " (NilEmpty.string_of_uint d) = false.
Proof. induction d; simpl; auto. Qed.

(** A decimal numeral has no space in it. *)
Lemma str_no_space (n : Z) : contains " " (str n) = false.
Proof.
  unfold str.
  destruct (Z.to_int n) as [d|d]; simpl;
    destruct d; simpl; auto using uint_no_space.
Qed.

(** Reading back what [str] prints. *)
Lemma parse_int_str (n : Z) : parse_int (str n) = Some n.
Proof.
  unfold parse_int, str.
  rewrite NilZero.isi.
  - simpl. now rewrite DecimalZ.of_to.
  - destruct n as [|p|p]; simpl; try discriminate.
    intros [= Hp]. revert Hp. apply DecimalPos.Unsigned.to_uint_nonnil.
  - destruct n as [|p|p]; simpl; try discriminate.
    intros [= Hp]. revert Hp. apply DecimalPos.Unsigned.to_uint_nonnil.
Qed.


(** [parse_boxline] reads back every rendered box. *)
Lemma parse_render (b : box) : parse_boxline (render b) = Some b.
Proof.
  destruct b as [c x0 y0 x1 y1 p].
  unfold render, boxline_format, parse_boxline.
  cbn [b_char b_x0 b_y0 b_x1 b_y1 b_page].
  change (String c "" ++ " " ++ ?r) with (String c (String " " r)).
  cbv beta iota. change (Ascii.eqb " " " ") with true. cbv iota.
  repeat (rewrite (split_append_field _ _ _ (str_no_space _))).
  rewrite (split_no_sep _ _ (str_no_space _)).
  rewrite !parse_int_str. reflexivity.
Qed.

Lemma render_inj (b b' : box) : render b = render b' -> b = b'.
Proof.
  intros E. apply (f_equal parse_boxline) in E.
  rewrite !parse_render in E. congruence.
Qed.


(** The [%] operator on the file prefix format string, and [join]. *)
Lemma format_prefix (d f : string) (n : Z) :
  format "%s.%s.exp%s" [VStr d; VStr f; VStr (str n)] = Some (trainer_prefix d f n)
  /\ join "." [d; f; "exp" ++ str n] = trainer_prefix d f n.
Proof.
  unfold trainer_prefix. cbn. now rewrite append_nil_r.
Qed.


End PyFacts.

(** ** The layout engine *)

Section LayoutFacts.

Context {Font : Type}.
Variable getsize : Font -> string -> Z * Z.

Implicit Types (st : @fill_state Font) (s : @MultiPageTif Font).

Lemma set_boxlines_same s : set_boxlines s (boxlines s) = s.
Proof. now destruct s. Qed.

(** [fill_char] appends the lines of [char_box] and nothing else. *)
Lemma fill_char_self st (c : ascii) :
  self (fill_char getsize st c)
  = set_boxlines (self st) (boxlines (self st) ++ map render (char_box st c)).
Proof.
  unfold fill_char, char_box. destruct (Ascii.eqb c " "); simpl.
  - now rewrite app_nil_r, set_boxlines_same.
  - reflexivity.
Qed.

(** What a run of characters does to the state. *)
Lemma fill_chars_spec (cs : list ascii) st :
  let st' := fold_left (fill_char getsize) cs st in
  self st' = set_boxlines (self st)
               (boxlines (self st) ++ map render (chars_boxes getsize st cs))
  /\ page_nb st' = page_nb st
  /\ x_pos st' = x_pos st + 28 * Z.of_nat (length cs)
  /\ y_pos st' = y_pos st
  /\ disk st' = disk st.
Proof.
  revert st. induction cs as [|c cs IH]; intros st; cbn [fold_left chars_boxes].
  - cbn. rewrite app_nil_r, set_boxlines_same. repeat split; lia.
  - destruct (IH (fill_char getsize st c)) as (Hs & Hp & Hx & Hy & Hd).
    cbv zeta in *. rewrite Hs, Hp, Hx, Hy, Hd, fill_char_self.
    repeat split.
    + cbn [set_boxlines boxlines W H start_x start_y text font font_name
             dictionary_name prefix indiv_page_prefix verbose].
      now rewrite map_app, app_assoc.
    + cbn [length fill_char x_pos]. lia.
Qed.

Lemma fill_break_self st (word : string) :
  self (fill_break getsize st word) = self st.
Proof.
  unfold fill_break.
  destruct (word_fits_in_line _ _ _); [reflexivity |]; cbn [negb].
  now destruct (newline_fits_in_page _ _ _).
Qed.

(** A break keeps the page or moves to the next one. *)
Lemma fill_break_page st (word : string) :
  page_nb st <= page_nb (fill_break getsize st word) <= page_nb st + 1.
Proof.
  unfold fill_break.
  destruct (word_fits_in_line _ _ _); cbn [negb]; [lia |].
  destruct (newline_fits_in_page _ _ _); cbn [page_nb]; lia.
Qed.

Lemma fill_word_self st (w : string) :
  self (fill_word getsize st w)
  = set_boxlines (self st)
      (boxlines (self st)
       ++ map render (chars_boxes getsize (fill_break getsize st (w ++ " "))
                        (list_ascii_of_string (w ++ " ")))).
Proof.
  unfold fill_word.
  destruct (fill_chars_spec (list_ascii_of_string (w ++ " "))
              (fill_break getsize st (w ++ " "))) as (Hs & _).
  cbv zeta in Hs. now rewrite Hs, fill_break_self.
Qed.

Lemma fill_word_page st (w : string) :
  page_nb (fill_word getsize st w) = page_nb (fill_break getsize st (w ++ " ")).
Proof.
  unfold fill_word.
  now destruct (fill_chars_spec (list_ascii_of_string (w ++ " "))
                  (fill_break getsize st (w ++ " "))) as (_ & Hp & _).
Qed.

(** The lines of the whole loop are the rendered [words_boxes]. *)
Lemma fill_words_self (ws : list string) st :
  self (fold_left (fill_word getsize) ws st)
  = set_boxlines (self st)
      (boxlines (self st) ++ map render (words_boxes getsize st ws)).
Proof.
  revert st. induction ws as [|w ws IH]; intros st; cbn [fold_left words_boxes].
  - cbn. now rewrite app_nil_r, set_boxlines_same.
  - rewrite IH, fill_word_self.
    cbn [set_boxlines boxlines W H start_x start_y text font font_name
           dictionary_name prefix indiv_page_prefix verbose].
    now rewrite map_app, app_assoc.
Qed.

Lemma fill_words_page (ws : list string) st :
  page_nb st <= page_nb (fold_left (fill_word getsize) ws st).
Proof.
  revert st. induction ws as [|w ws IH]; intros st; cbn [fold_left]; [lia |].
  specialize (IH (fill_word getsize st w)).
  rewrite fill_word_page in IH.
  pose proof (fill_break_page st (w ++ " ")). lia.
Qed.

(** The lines that [_fill_pages] leaves in the object. *)
Lemma fill_pages_boxlines s (d : storage) :
  boxlines (fst (_fill_pages getsize s d))
  = (boxlines s
     ++ map render
          (words_boxes getsize
             (FillState s (_new_tif s "white") 0 (start_x s) (start_y s) d)
             (text s)))%list.
Proof.
  unfold _fill_pages, fill_loop. cbn [fst]. now rewrite fill_words_self.
Qed.

End LayoutFacts.

(** ** The boxes the layout emits *)

Section BoxFacts.

Context {Font : Type}.
Variable getsize : Font -> string -> Z * Z.

Implicit Types (st : @fill_state Font) (s : @MultiPageTif Font).

Lemma fill_char_H st (c : ascii) : H (self (fill_char getsize st c)) = H (self st).
Proof. now rewrite fill_char_self. Qed.

Lemma fill_word_H st (w : string) : H (self (fill_word getsize st w)) = H (self st).
Proof. now rewrite fill_word_self. Qed.

Lemma fill_char_page st (c : ascii) : page_nb (fill_char getsize st c) = page_nb st.
Proof. reflexivity. Qed.

(** One box per character that is not a space, in order. *)
Lemma chars_boxes_chars (cs : list ascii) st :
  map b_char (chars_boxes getsize st cs)
  = filter (fun c => Ascii.eqb c " " = false) cs.
Proof.
  revert st. induction cs as [|c cs IH]; intros st; [reflexivity |].
  cbn [chars_boxes]. rewrite map_app, IH, filter_cons. unfold char_box.
  destruct (Ascii.eqb c " ") eqn:E.
  - rewrite decide_False by congruence. reflexivity.
  - rewrite decide_True by reflexivity. reflexivity.
Qed.

Lemma words_boxes_chars (ws : list string) st :
  map b_char (words_boxes getsize st ws)
  = concat (map (fun w => nonspace_chars (w ++ " ")) ws).
Proof.
  revert st. induction ws as [|w ws IH]; intros st; [reflexivity |].
  cbn [words_boxes map concat]. now rewrite map_app, IH, chars_boxes_chars.
Qed.

Lemma nonspace_chars_cons (a : ascii) (t : string) :
  nonspace_chars (String a t)
  = if Ascii.eqb a " " then nonspace_chars t else a :: nonspace_chars t.
Proof.
  unfold nonspace_chars. cbn [list_ascii_of_string]. rewrite filter_cons.
  destruct (Ascii.eqb a " ") eqn:E.
  - now rewrite decide_False by congruence.
  - now rewrite decide_True by reflexivity.
Qed.

(** Splitting on spaces and giving each word its space back loses no
    character other than spaces. *)
Lemma split_nonspace_chars (t : string) :
  concat (map (fun w => nonspace_chars (w ++ " ")) (Py.split " " t))
  = nonspace_chars t.
Proof.
  induction t as [|a t IH]; [reflexivity |].
  rewrite nonspace_chars_cons. cbn [Py.split].
  destruct (Ascii.eqb a " ") eqn:E.
  - cbn [map concat]. now rewrite IH.
  - pose proof (split_not_nil " " t) as Hne.
    destruct (Py.split " " t) as [|w ws]; [contradiction |].
    cbn [map concat] in *. rewrite <- IH.
    change (String a w ++ " ") with (String a (w ++ " ")).
    now rewrite nonspace_chars_cons, E.
Qed.

(** Every box of a run of characters is a 28 by 28 glyph box on the
    current page and names no space. *)
Lemma chars_boxes_shape (cs : list ascii) st :
  Forall (fun b => glyph_box (H (self st)) b /\ b_page b = page_nb st
                   /\ b_char b <> " "%char)
    (chars_boxes getsize st cs).
Proof.
  revert st. induction cs as [|c cs IH]; intros st; cbn [chars_boxes].
  - constructor.
  - apply Forall_app. split.
    + unfold char_box. destruct (Ascii.eqb c " ") eqn:E; constructor; [| constructor].
      cbn. repeat split.
      * exists (x_pos st), (y_pos st). split; reflexivity.
      * now apply Ascii.eqb_neq.
    + specialize (IH (fill_char getsize st c)).
      now rewrite fill_char_H, fill_char_page in IH.
Qed.

Lemma words_boxes_shape (ws : list string) st :
  Forall (fun b => glyph_box (H (self st)) b /\ page_nb st <= b_page b
                   /\ b_char b <> " "%char)
    (words_boxes getsize st ws).
Proof.
  revert st. induction ws as [|w ws IH]; intros st; cbn [words_boxes].
  - constructor.
  - pose proof (fill_break_page getsize st (w ++ " ")) as Hp.
    apply Forall_app. split.
    + pose proof (chars_boxes_shape (list_ascii_of_string (w ++ " "))
                    (fill_break getsize st (w ++ " "))) as Hc.
      rewrite fill_break_self in Hc.
      eapply Forall_impl; [exact Hc |].
      intros b (Hg & Hb & Hn). repeat split; [exact Hg | lia | exact Hn].
    + specialize (IH (fill_word getsize st w)).
      rewrite fill_word_H, fill_word_page in IH.
      eapply Forall_impl; [exact IH |].
      intros b (Hg & Hb & Hn). repeat split; [exact Hg | lia | exact Hn].
Qed.

Lemma sorted_const_app (p : Z) (l1 l2 : list Z) :
  Forall (fun x => x = p) l1 -> Forall (fun x => p <= x) l2 ->
  Sorted Z.le l2 -> Sorted Z.le (l1 ++ l2).
Proof.
  intros H1 H2 Hs. induction l1 as [|x l1 IH]; [exact Hs |].
  apply Forall_cons in H1 as [-> H1].
  cbn. constructor; [now apply IH |].
  destruct l1 as [|y l1]; cbn.
  - destruct H2; constructor. assumption.
  - constructor. apply Forall_cons in H1 as [-> _]. lia.
Qed.

(** Page numbers never decrease along the emitted boxes. *)
Lemma words_boxes_sorted (ws : list string) st :
  Sorted Z.le (map b_page (words_boxes getsize st ws)).
Proof.
  revert st. induction ws as [|w ws IH]; intros st; cbn [words_boxes].
  - constructor.
  - rewrite map_app.
    apply (sorted_const_app (page_nb (fill_break getsize st (w ++ " ")))).
    + apply Forall_map.
      eapply Forall_impl; [apply chars_boxes_shape |].
      now intros b (_ & Hb & _).
    + apply Forall_map.
      eapply Forall_impl; [apply words_boxes_shape |].
      intros b (_ & Hb & _). cbn beta. now rewrite fill_word_page in Hb.
    + apply IH.
Qed.

End BoxFacts.

(** The first word of a text that starts with a character [c] other than
    a space starts with [c]. *)
Lemma split_first (c : ascii) (t : string) :
  c <> " "%char ->
  exists w ws, Py.split " " (String c t) = String c w :: ws.
Proof.
  intros Hc. cbn [Py.split]. apply Ascii.eqb_neq in Hc. rewrite Hc.
  pose proof (split_not_nil " " t) as Hne.
  destruct (Py.split " " t) as [|w ws]; [contradiction | eauto].
Qed.

Section FirstBox.

Context {Font : Type}.
Variable getsize : Font -> string -> Z * Z.

(** The first box of a word that starts with a character other than a
    space is on the page that the break before the word selects. *)
Lemma words_boxes_first (st : @fill_state Font) (c : ascii) (w : string)
    (ws : list string) :
  c <> " "%char ->
  exists b bs,
    words_boxes getsize st (String c w :: ws) = b :: bs
    /\ b_page b = page_nb (fill_break getsize st (String c w ++ " "))
    /\ b_char b = c.
Proof.
  intros Hc. apply Ascii.eqb_neq in Hc.
  cbn [words_boxes].
  change (String c w ++ " ") with (String c (w ++ " ")).
  cbn [list_ascii_of_string chars_boxes]. unfold char_box at 1. rewrite Hc.
  cbn [app]. eauto.
Qed.

(** No page break happens before a word that fits on the line, nor when a
    new line fits on the page. *)
Lemma fill_break_same_page (st : @fill_state Font) (word : string) :
  W (self st) - x_pos st - Py.len word * 28 > 0
  \/ H (self st) - y_pos st - 2 * 28 > 0 ->
  page_nb (fill_break getsize st word) = page_nb st.
Proof.
  intros Hfit. unfold fill_break, word_fits_in_line, newline_fits_in_page.
  destruct (Z.gtb_spec (W (self st) - x_pos st - Py.len word * 28) 0);
    cbn [negb]; [reflexivity |].
  destruct (Z.gtb_spec (H (self st) - y_pos st - 2 * 28) 0);
    cbn [page_nb]; [reflexivity | lia].
Qed.

End FirstBox.

(** ** The layout does not depend on the font *)

Section Forget.

Context {Font : Type}.
Variable getsize : Font -> string -> Z * Z.

Lemma forget_fill_char (st : @fill_state Font) (c : ascii) :
  forget_state (fill_char getsize st c) = fill_char no_getsize (forget_state st) c.
Proof.
  unfold fill_char, forget_state, draw_text, forget_image.
  cbn [self tif page_nb x_pos y_pos disk im_size im_color im_drawn].
  rewrite map_app. destruct (Ascii.eqb c " "); reflexivity.
Qed.

Lemma forget_fill_break (st : @fill_state Font) (word : string) :
  forget_state (fill_break getsize st word)
  = fill_break no_getsize (forget_state st) word.
Proof.
  unfold fill_break, forget_state.
  cbn [self tif page_nb x_pos y_pos disk forget_self W H start_x start_y].
  destruct (word_fits_in_line _ _ _); cbn [negb]; [reflexivity |].
  destruct (newline_fits_in_page _ _ _); [reflexivity |].
  unfold _save_tif, forget_disk. cbn [self tif page_nb x_pos y_pos disk].
  now rewrite map_app.
Qed.

Lemma forget_fill_chars (cs : list ascii) (st : @fill_state Font) :
  forget_state (fold_left (fill_char getsize) cs st)
  = fold_left (fill_char no_getsize) cs (forget_state st).
Proof.
  revert st. induction cs as [|c cs IH]; intros st; [reflexivity |].
  cbn [fold_left]. now rewrite IH, forget_fill_char.
Qed.

Lemma forget_fill_word (st : @fill_state Font) (w : string) :
  forget_state (fill_word getsize st w) = fill_word no_getsize (forget_state st) w.
Proof. unfold fill_word. now rewrite forget_fill_chars, forget_fill_break. Qed.

Lemma forget_fill_words (ws : list string) (st : @fill_state Font) :
  forget_state (fold_left (fill_word getsize) ws st)
  = fold_left (fill_word no_getsize) ws (forget_state st).
Proof.
  revert st. induction ws as [|w ws IH]; intros st; [reflexivity |].
  cbn [fold_left]. now rewrite IH, forget_fill_word.
Qed.

(** Laying out and then forgetting the font is laying out with the trivial
    font. *)
Lemma forget_fill_loop (s : @MultiPageTif Font) (d : storage) :
  forget_state (fill_loop getsize s d)
  = fill_loop no_getsize (forget_self s) (forget_disk d).
Proof. unfold fill_loop. now rewrite forget_fill_words. Qed.

Lemma forget_fill_pages (s : @MultiPageTif Font) (d : storage) :
  (forget_self (fst (_fill_pages getsize s d)),
   forget_disk (snd (_fill_pages getsize s d)))
  = _fill_pages no_getsize (forget_self s) (forget_disk d).
Proof.
  unfold _fill_pages. cbn [fst snd]. rewrite <- forget_fill_loop.
  unfold forget_state, _save_tif, forget_disk.
  cbn [self tif page_nb x_pos y_pos disk]. now rewrite map_app.
Qed.

End Forget.

(** The text written by [generate_boxfile]: every line followed by a
    newline character, in order. *)
Lemma generate_boxfile_text {Font : Type} (s : @MultiPageTif Font) :
  snd (generate_boxfile s)
  = fold_right (fun line rest => line ++ String "010" "" ++ rest) "" (boxlines s).
Proof.
  unfold generate_boxfile. cbn [snd].
  generalize (boxlines s). intros l.
  enough (Hg : forall acc,
    fold_left (fun written boxline => written ++ (boxline ++ String "010" "")) l acc
    = acc ++ fold_right (fun line rest => line ++ String "010" "" ++ rest) "" l)
    by apply (Hg "").
  induction l as [|x l IH]; intros acc; cbn [fold_left fold_right].
  - now rewrite append_nil_r.
  - now rewrite IH, !append_assoc.
Qed.

(** ** The font properties registry *)



(** The space character is whitespace. *)
Lemma contains_space_whitespace (s : string) :
  Py.contains " " s = true -> has_whitespace s = true.
Proof.
  unfold has_whitespace. induction s as [|a s IH]; cbn; [discriminate |].
  intros Hc. apply orb_true_iff in Hc as [Ha | Hs].
  - apply Ascii.eqb_eq in Ha. subst a. reflexivity.
  - rewrite (IH Hs). apply orb_true_r.
Qed.

(** ** Sequences of removals *)

Lemma remove_all_cons (p : string) (l : list string) (w : world) :
  remove_all (p :: l) w
  = match files w !! p with
    | Some _ =>
        remove_all l (World (delete p (files w)) (dirs w) (trace w ++ [Remove p]))
    | None =>
        (inl (OSError p), World (files w) (dirs w) (trace w ++ [Remove p]))
    end.
Proof.
  cbn [remove_all foldr]. unfold bind, os_remove.
  destruct (files w !! p); reflexivity.
Qed.



Section CleanFacts.

Variable shell : string -> gmap string string -> gmap string string.

(** [clean] is a sequence of removals. *)
Lemma clean_remove_all (self : TesseractTrainer) (w : world) :
  clean self w
  = remove_all (clean_first self
                ++ (if word_list_given (word_list self) then [freq_dawg self] else [])
                ++ ["mfunicharset"])%list w.
Proof.
  unfold clean, clean_first, freq_dawg.
  destruct (word_list_given (word_list self));
    cbn [remove_all foldr app]; unfold bind, ret; cbv beta iota;
    repeat (match goal with
            | |- context [os_remove ?p ?w] =>
                destruct (os_remove p w) as [[?|[]] ?]; try reflexivity
            end).
Qed.

End CleanFacts.

(** The last character of a path tells the dictionary file from all the
    other files that [clean] removes. *)
Lemma last_char_append (a b : string) (c : ascii) :
  last (list_ascii_of_string b) = Some c ->
  last (list_ascii_of_string (a ++ b)) = Some c.
Proof. intros Hb. now rewrite chars_append, last_app, Hb. Qed.


(** * The claims *)

(** ** Coordinate mapper *)

(** C3: for all integers [x], [y] and page height [h], the coordinate mapper
    returns exactly [(x, h - y)]; it is a total function without error case,
    and mapping its result again with the same height gives [(x, y)] back. *)
Theorem pil_coord_to_tesseract_involution (x y h : Z) :
  pil_coord_to_tesseract x y h = (x, h - y)
  /\ pil_coord_to_tesseract x (h - y) h = (x, y)
  /\ pil_coord_to_tesseract (fst (pil_coord_to_tesseract x y h))
       (snd (pil_coord_to_tesseract x y h)) h = (x, y).
Proof.
  unfold pil_coord_to_tesseract. cbn [fst snd].
  repeat split; f_equal; lia.
Qed.

(** ** File prefix *)

(** A trainer that [__init__] returns carries the arguments it was given and
    the prefix computed from them; the world is left as it was. *)
Lemma TesseractTrainer_init_ok (d text fname fpath fprops : string)
    (fsize n : Z) (tess : string) (wl : option string) (v : bool)
    (w w' : world) (t : TesseractTrainer) :
  TesseractTrainer_init d text fname fpath fprops fsize n tess wl v w = (inr t, w') ->
  w' = w
  /\ tt_prefix t = trainer_prefix d fname n
  /\ tt_dictionary_name t = d /\ tt_font_name t = fname /\ tt_exp_number t = n
  /\ word_list t = wl.
Proof.
  unfold TesseractTrainer_init, bind, open_read, exists_, raise, ret.
  destruct (files w !! text); [| discriminate].
  destruct (Py.contains " " fname); [discriminate |].
  destruct (path_exists w fpath); cbn [negb]; [| discriminate].
  destruct (files w !! fprops); [| discriminate].
  destruct (bool_decide _); cbn [negb]; [| discriminate].
  destruct (path_exists w tess); cbn [negb]; [| discriminate].
  intros [= <- <-]. repeat split.
Qed.

(** C7: the file prefix is a function of the dictionary name, the font name
    and the experience number only, equal to
    ["{dictionary_name}.{font_name}.exp{exp_number}"]; the computation with
    [join] in [MultiPageTif.__init__] and the one with [%] in
    [TesseractTrainer.__init__] give the same string, and so do a trainer
    and the [MultiPageTif] object it builds. *)
Theorem prefix_canonical {Font : Type} (truetype : string -> Z -> Font)
    (txt : string) (pw ph sx sy : Z) (fname fpath : string) (fsize n : Z)
    (d : string) (v : bool) :
  prefix (MultiPageTif_init truetype txt pw ph sx sy fname fpath fsize n d v)
  = d ++ "." ++ fname ++ ".exp" ++ Py.str n
  /\ trainer_prefix d fname n = d ++ "." ++ fname ++ ".exp" ++ Py.str n
  /\ Py.format "%s.%s.exp%s" [Py.VStr d; Py.VStr fname; Py.VStr (Py.str n)]
     = Some (trainer_prefix d fname n)
  /\ prefix (MultiPageTif_init truetype txt pw ph sx sy fname fpath fsize n d v)
     = trainer_prefix d fname n
  /\ forall (text_path fprops tess : string) (wl : option string) (w w' : world)
       (t : TesseractTrainer),
       TesseractTrainer_init d text_path fname fpath fprops fsize n tess wl v w = (inr t, w') ->
       tt_prefix t = trainer_prefix d fname n
       /\ prefix (_generate_boxfile_mp truetype t) = tt_prefix t.
Proof.
  destruct (format_prefix d fname n) as [Hf Hj].
  split; [exact Hj |]. split; [reflexivity |]. split; [exact Hf |].
  split; [exact Hj |].
  intros text_path fprops tess wl w w' t Hinit.
  apply TesseractTrainer_init_ok in Hinit as (_ & Hp & Hd & Hn & He & _).
  split; [exact Hp |].
  unfold _generate_boxfile_mp, MultiPageTif_init. cbn [prefix].
  rewrite Hp, Hd, Hn, He. exact Hj.
Qed.

Lemma prefix_canonical_witness :
  exists t : TesseractTrainer,
    TesseractTrainer_init "eng" "text.txt" "helvetica" "helvetica.ttf"
      "font_properties" 25 0 "/usr/share/tessdata" None true ready_world
    = (inr t, ready_world)
    /\ tt_prefix t = "eng.helvetica.exp0"
    /\ prefix (_generate_boxfile_mp (fun _ _ => tt) t) = "eng.helvetica.exp0".
Proof.
  eexists. split; [vm_compute; reflexivity |].
  destruct (prefix_canonical (fun _ _ => tt) "AB CD" 3500 1024 20 20
              "helvetica" "helvetica.ttf" 25 0 "eng" true)
    as (_ & _ & _ & _ & Hw).
  edestruct (Hw "text.txt" "font_properties" "/usr/share/tessdata" None
               ready_world ready_world) as [H1 H2].
  - vm_compute. reflexivity.
  - split; [exact H1 | exact H2].
Defined.

(** ** Layout *)

(** C6: the text ["AB CD"] on a 1000 by 1000 page from the cursor
    [(20, 20)] gives one page, of index 0, and four boxes, for [A], [B],
    [C] and [D]; each is 28 wide and 28 high, the left edges are 20, 48,
    104 and 132, and the vertical coordinates are 1000 minus the
    top-left-origin ones, which are 20 for the top and 48 for the bottom. *)
Theorem layout_AB_CD {Font : Type} (truetype : string -> Z -> Font)
    (getsize : Font -> string -> Z * Z) (fname fpath : string) (fsize n : Z)
    (d : string) (v : bool) :
  let mp := MultiPageTif_init truetype "AB CD" 1000 1000 20 20 fname fpath fsize n d v in
  let boxes := [Box "A" 20 (1000 - 48) 48 (1000 - 20) 0;
                Box "B" 48 (1000 - 48) 76 (1000 - 20) 0;
                Box "C" 104 (1000 - 48) 132 (1000 - 20) 0;
                Box "D" 132 (1000 - 48) 160 (1000 - 20) 0] in
  boxlines (fst (_fill_pages getsize mp [])) = map render boxes
  /\ boxlines (fst (_fill_pages getsize mp []))
     = ["A 20 952 48 980 0"; "B 48 952 76 980 0";
        "C 104 952 132 980 0"; "D 132 952 160 980 0"]
  /\ map parse_boxline (boxlines (fst (_fill_pages getsize mp []))) = map Some boxes
  /\ Forall (fun b => b_x1 b - b_x0 b = 28 /\ b_y1 b - b_y0 b = 28) boxes
  /\ map fst (snd (_fill_pages getsize mp [])) = ["page0.tif"]
  /\ page_nb (fill_loop getsize mp []) = 0.
Proof.
  cbv zeta. split; [reflexivity |]. split; [reflexivity |].
  split; [reflexivity |]. split; [| split; reflexivity].
  repeat constructor.
Qed.

(** C2: a word (with its trailing space, [28] wide per character) fails to
    fit the current line exactly when [W - x - word_width <= 0].  When it
    fails and [H - y - 2 * line_height > 0], the cursor moves to
    [(start_x, y + line_height)] on the same page; when it fails and that
    room is missing, the current page is saved under its page number, the
    page number grows by one and the cursor is back at
    [(start_x, start_y)] on a new blank page.  A word that fits leaves the
    state alone.  The characters of the word are written after that. *)
Theorem fill_break_policy {Font : Type} (getsize : Font -> string -> Z * Z)
    (st : @fill_state Font) (word : string) :
  let w := word ++ " " in
  let word_width := Py.len w * 28 in
  let line_height := 28 in
  fill_word getsize st word
  = fold_left (fill_char getsize) (list_ascii_of_string w) (fill_break getsize st w)
  /\ (word_fits_in_line (W (self st)) (x_pos st) word_width = false
      <-> W (self st) - x_pos st - word_width <= 0)
  /\ (W (self st) - x_pos st - word_width > 0 -> fill_break getsize st w = st)
  /\ (W (self st) - x_pos st - word_width <= 0 ->
      H (self st) - y_pos st - 2 * line_height > 0 ->
      fill_break getsize st w
      = FillState (self st) (tif st) (page_nb st)
          (start_x (self st)) (y_pos st + line_height) (disk st))
  /\ (W (self st) - x_pos st - word_width <= 0 ->
      H (self st) - y_pos st - 2 * line_height <= 0 ->
      fill_break getsize st w
      = FillState (self st) (_new_tif (self st) "white")
          (page_nb st + 1) (start_x (self st)) (start_y (self st))
          (_save_tif (self st) (tif st) (page_nb st) (disk st))).
Proof.
  cbv zeta. split; [reflexivity |].
  unfold fill_break, word_fits_in_line, newline_fits_in_page.
  destruct (Z.gtb_spec (W (self st) - x_pos st - Py.len (word ++ " ") * 28) 0)
    as [Hfit | Hfit];
    destruct (Z.gtb_spec (H (self st) - y_pos st - 2 * 28) 0) as [Hnl | Hnl];
    cbn [negb]; repeat split; intros; try lia; try reflexivity; try discriminate.
Qed.

Lemma fill_break_policy_witness :
  let mp := MultiPageTif_init (fun _ _ => tt) "AB CD" 100 100 20 20
              "helvetica" "helvetica.ttf" 25 0 "eng" true in
  let blank := Image (100, 100) "white" [] in
  fill_break no_getsize (FillState mp blank 0 20 20 []) "A " = FillState mp blank 0 20 20 []
  /\ fill_break no_getsize (FillState mp blank 0 76 20 []) "A " = FillState mp blank 0 20 48 []
  /\ fill_break no_getsize (FillState mp blank 0 76 48 []) "A "
     = FillState mp blank 1 20 20 [("page0.tif", blank)].
Proof.
  cbv zeta.
  split; [| split].
  - apply (fill_break_policy no_getsize
             (FillState (MultiPageTif_init (fun _ _ => tt) "AB CD" 100 100 20 20
                           "helvetica" "helvetica.ttf" 25 0 "eng" true)
                (Image (100, 100) "white" []) 0 20 20 []) "A").
    vm_compute. reflexivity.
  - apply (fill_break_policy no_getsize
             (FillState (MultiPageTif_init (fun _ _ => tt) "AB CD" 100 100 20 20
                           "helvetica" "helvetica.ttf" 25 0 "eng" true)
                (Image (100, 100) "white" []) 0 76 20 []) "A");
      vm_compute; [discriminate | reflexivity].
  - apply (fill_break_policy no_getsize
             (FillState (MultiPageTif_init (fun _ _ => tt) "AB CD" 100 100 20 20
                           "helvetica" "helvetica.ttf" 25 0 "eng" true)
                (Image (100, 100) "white" []) 0 76 48 []) "A");
      vm_compute; discriminate.
Defined.

(** Where the space is the only whitespace, the characters that are not
    spaces are those that are not whitespace. *)
Lemma nonspace_nonwhitespace (t : string) :
  (forall c, In c (list_ascii_of_string t) -> Py.isspace c = true -> c = " "%char) ->
  nonspace_chars t = nonwhitespace_chars t.
Proof.
  unfold nonspace_chars, nonwhitespace_chars.
  induction (list_ascii_of_string t) as [|a l IH]; intros Hws; [reflexivity |].
  rewrite !filter_cons, IH by (intros c Hc; apply Hws; now right).
  destruct (Ascii.eqb a " ") eqn:Ea.
  - apply Ascii.eqb_eq in Ea. subst a. reflexivity.
  - destruct (Py.isspace a) eqn:Es.
    + apply Hws in Es; [| now left]. subst a. discriminate.
    + reflexivity.
Qed.

(** C1, amended: the layout records one box line for each character of the
    text other than the space character, in the order of the text; so the
    number of lines is the number of such characters, and it is the number
    of characters that are not whitespace when the space is the only
    whitespace of the text. *)
Theorem boxlines_per_nonspace_char {Font : Type} (truetype : string -> Z -> Font)
    (getsize : Font -> string -> Z * Z) (txt : string) (pw ph sx sy : Z)
    (fname fpath : string) (fsize n : Z) (d : string) (v : bool)
    (disk : storage) :
  let mp := MultiPageTif_init truetype txt pw ph sx sy fname fpath fsize n d v in
  let lines := boxlines (fst (_fill_pages getsize mp disk)) in
  (exists bs, lines = map render bs /\ map b_char bs = nonspace_chars txt)
  /\ length lines = length (nonspace_chars txt)
  /\ ((forall c, In c (list_ascii_of_string txt) -> Py.isspace c = true ->
                 c = " "%char) ->
      length lines = length (nonwhitespace_chars txt)).
Proof.
  cbv zeta. rewrite fill_pages_boxlines. cbn [boxlines MultiPageTif_init text app].
  set (bs := words_boxes getsize _ _).
  assert (Hc : map b_char bs = nonspace_chars txt)
    by (unfold bs; now rewrite words_boxes_chars, split_nonspace_chars).
  assert (Hl : length (map render bs) = length (nonspace_chars txt))
    by (now rewrite <- Hc, !length_map).
  split; [now exists bs |]. split; [exact Hl |].
  intros Hws. now rewrite <- (nonspace_nonwhitespace txt Hws).
Qed.

Lemma boxlines_per_nonspace_char_witness :
  length (boxlines (fst (_fill_pages no_getsize
            (MultiPageTif_init (fun _ _ => tt) "AB CD" 1000 1000 20 20
               "helvetica" "helvetica.ttf" 25 0 "eng" true) [])))
  = length (nonwhitespace_chars "AB CD").
Proof.
  apply (boxlines_per_nonspace_char (fun _ _ => tt) no_getsize "AB CD").
  intros c Hc. vm_compute in Hc.
  repeat (destruct Hc as [<- | Hc]; [vm_compute; intros; congruence |]).
  contradiction.
Defined.

(** C1 as stated fails on a tab: the text [a<TAB>b] has two characters that
    are not whitespace and gets three box lines. *)
Lemma boxlines_count_tab :
  let text := String "a" (String "009" (String "b" "")) in
  length (boxlines (fst (_fill_pages no_getsize
            (MultiPageTif_init (fun _ _ => tt) text 1000 1000 20 20
               "helvetica" "helvetica.ttf" 25 0 "eng" true) []))) = 3%nat
  /\ length (nonwhitespace_chars text) = 2%nat
  /\ boxlines (fst (_fill_pages no_getsize
            (MultiPageTif_init (fun _ _ => tt) text 1000 1000 20 20
               "helvetica" "helvetica.ttf" 25 0 "eng" true) []))
     = ["a 20 952 48 980 0"; String "009" " 48 952 76 980 0"; "b 76 952 104 980 0"].
Proof. cbv zeta. repeat split. Qed.



(** C5, amended: the page numbers of the box lines, in the order of the
    lines, never decrease and are never negative; the first one is 0 when
    the text starts with a character other than a space and its first word
    fits on the first line or a new line fits on the page at the start
    cursor. *)
Theorem page_numbers_monotone {Font : Type} (truetype : string -> Z -> Font)
    (getsize : Font -> string -> Z * Z) (txt : string) (pw ph sx sy : Z)
    (fname fpath : string) (fsize n : Z) (d : string) (v : bool)
    (disk : storage) :
  let mp := MultiPageTif_init truetype txt pw ph sx sy fname fpath fsize n d v in
  exists bs : list box,
    boxlines (fst (_fill_pages getsize mp disk)) = map render bs
    /\ map parse_boxline (boxlines (fst (_fill_pages getsize mp disk))) = map Some bs
    /\ Sorted Z.le (map b_page bs)
    /\ Forall (fun b => 0 <= b_page b) bs
    /\ (forall (c : ascii) (rest : string),
          txt = String c rest -> c <> " "%char ->
          pw - sx - Py.len (hd "" (Py.split " " txt) ++ " ") * 28 > 0
          \/ ph - sy - 2 * 28 > 0 ->
          exists b bs', bs = b :: bs' /\ b_page b = 0).
Proof.
  cbv zeta.
  set (mp := MultiPageTif_init truetype txt pw ph sx sy fname fpath fsize n d v).
  set (st0 := FillState mp (_new_tif mp "white") 0 sx sy disk).
  exists (words_boxes getsize st0 (Py.split " " txt)).
  split; [now rewrite fill_pages_boxlines |].
  split.
  { rewrite fill_pages_boxlines. cbn [boxlines mp MultiPageTif_init app].
    rewrite map_map. apply map_ext. intros b. apply parse_render. }
  split; [apply words_boxes_sorted |].
  split.
  { eapply Forall_impl; [apply words_boxes_shape |]. now intros b (_ & Hp & _). }
  intros c rest -> Hc Hfit.
  destruct (split_first c rest Hc) as (w & ws & Hs).
  rewrite Hs in *. cbn [hd] in Hfit.
  destruct (words_boxes_first getsize st0 c w ws Hc) as (b & bs' & Hb & Hp & _).
  exists b, bs'. split; [exact Hb |].
  rewrite Hp. now apply fill_break_same_page.
Qed.

Lemma page_numbers_monotone_witness :
  exists bs : list box,
    boxlines (fst (_fill_pages no_getsize
       (MultiPageTif_init (fun _ _ => tt) "AB CD" 3500 1024 20 20
          "helvetica" "helvetica.ttf" 25 0 "eng" true) [])) = map render bs
    /\ exists b bs', bs = b :: bs' /\ b_page b = 0.
Proof.
  destruct (page_numbers_monotone (fun _ _ => tt) no_getsize "AB CD" 3500 1024 20 20
              "helvetica" "helvetica.ttf" 25 0 "eng" true [])
    as (bs & Hb & _ & _ & _ & Hfirst).
  exists bs. split; [exact Hb |].
  apply (Hfirst "A"%char "B CD" eq_refl); [discriminate |].
  right. reflexivity.
Defined.

(** C5 as stated fails on a page that cannot hold two lines: on a 100 by 60
    page the word [AB] does not fit the first line, no new line fits the
    page, and both boxes carry page number 1. *)
Lemma page_numbers_start_at_1 :
  let lines := boxlines (fst (_fill_pages no_getsize
     (MultiPageTif_init (fun _ _ => tt) "AB" 100 60 20 20
        "helvetica" "helvetica.ttf" 25 0 "eng" true) [])) in
  lines = ["A 20 12 48 40 1"; "B 48 12 76 40 1"]
  /\ map parse_boxline lines
     = [Some (Box "A" 20 12 48 40 1); Some (Box "B" 48 12 76 40 1)]
  /\ word_fits_in_line 100 20 (Py.len "AB " * 28) = false
  /\ newline_fits_in_page 60 20 28 = false.
Proof. cbv zeta. repeat split. Qed.

Lemma glyph_box_size (h : Z) (b : box) :
  glyph_box h b -> b_x1 b - b_x0 b = 28 /\ b_y1 b - b_y0 b = 28.
Proof.
  unfold glyph_box, pil_coord_to_tesseract.
  intros (x & y & [= Hx0 Hy1] & [= Hx1 Hy0]). lia.
Qed.

Lemma length_chars (s : string) :
  length (list_ascii_of_string s) = String.length s.
Proof. induction s as [|a s IH]; cbn; [reflexivity | now rewrite IH]. Qed.

(** C10: whatever the font and the font size, every box line records a box
    28 wide and 28 high, every character moves the cursor 28 to the right
    and a word (with its space) moves it 28 times its length; two layouts
    of the same text on the same page that differ in the font file, the
    font size and the measurements of the font give the same box lines,
    the same page files with the same glyph positions, and end with the
    same cursor and page number. *)
Theorem layout_ignores_font {F1 F2 : Type}
    (truetype1 : string -> Z -> F1) (getsize1 : F1 -> string -> Z * Z)
    (truetype2 : string -> Z -> F2) (getsize2 : F2 -> string -> Z * Z)
    (txt : string) (pw ph sx sy : Z) (fname fpath1 fpath2 : string)
    (fsize1 fsize2 n : Z) (d : string) (v : bool) :
  let mp1 := MultiPageTif_init truetype1 txt pw ph sx sy fname fpath1 fsize1 n d v in
  let mp2 := MultiPageTif_init truetype2 txt pw ph sx sy fname fpath2 fsize2 n d v in
  boxlines (fst (_fill_pages getsize1 mp1 []))
  = boxlines (fst (_fill_pages getsize2 mp2 []))
  /\ forget_disk (snd (_fill_pages getsize1 mp1 []))
     = forget_disk (snd (_fill_pages getsize2 mp2 []))
  /\ forget_state (fill_loop getsize1 mp1 []) = forget_state (fill_loop getsize2 mp2 [])
  /\ (exists bs : list box,
        boxlines (fst (_fill_pages getsize1 mp1 [])) = map render bs
        /\ Forall (fun b => b_x1 b - b_x0 b = 28 /\ b_y1 b - b_y0 b = 28) bs)
  /\ (forall (st : @fill_state F1) (c : ascii),
        x_pos (fill_char getsize1 st c) = x_pos st + 28
        /\ y_pos (fill_char getsize1 st c) = y_pos st)
  /\ (forall (st : @fill_state F1) (w : string),
        x_pos (fill_word getsize1 st w)
        = x_pos (fill_break getsize1 st (w ++ " ")) + Py.len (w ++ " ") * 28).
Proof.
  cbv zeta.
  pose proof (forget_fill_pages getsize1
                (MultiPageTif_init truetype1 txt pw ph sx sy fname fpath1 fsize1 n d v) [])
    as E1.
  pose proof (forget_fill_pages getsize2
                (MultiPageTif_init truetype2 txt pw ph sx sy fname fpath2 fsize2 n d v) [])
    as E2.
  assert (E : (forget_self (fst (_fill_pages getsize1
                   (MultiPageTif_init truetype1 txt pw ph sx sy fname fpath1 fsize1 n d v) [])),
               forget_disk (snd (_fill_pages getsize1
                   (MultiPageTif_init truetype1 txt pw ph sx sy fname fpath1 fsize1 n d v) [])))
              = (forget_self (fst (_fill_pages getsize2
                   (MultiPageTif_init truetype2 txt pw ph sx sy fname fpath2 fsize2 n d v) [])),
                 forget_disk (snd (_fill_pages getsize2
                   (MultiPageTif_init truetype2 txt pw ph sx sy fname fpath2 fsize2 n d v) []))))
    by (rewrite E1, E2; reflexivity).
  pose proof (f_equal fst E) as Es. pose proof (f_equal snd E) as Ed.
  cbn [fst snd] in Es, Ed.
  split; [exact (f_equal boxlines Es) |].
  split; [now rewrite Ed |].
  split; [now rewrite !forget_fill_loop |].
  split.
  { eexists. split; [rewrite fill_pages_boxlines; reflexivity |].
    eapply Forall_impl; [apply words_boxes_shape |].
    intros b (Hg & _). exact (glyph_box_size _ _ Hg). }
  split; [intros st c; split; reflexivity |].
  intros st w. unfold fill_word.
  destruct (fill_chars_spec getsize1 (list_ascii_of_string (w ++ " "))
              (fill_break getsize1 st (w ++ " "))) as (_ & _ & Hx & _).
  cbv zeta in Hx. rewrite Hx, length_chars. unfold Py.len. lia.
Qed.

(** ** Configuration checks *)



Example TesseractTrainer_init_messages :
  fst (TesseractTrainer_init "eng" "text.txt" "helvetica narrow" "helvetica.ttf"
         "font_properties" 25 0 "/usr/share/tessdata" None true ready_world)
  = inl (SystemExit "The --font-name / -F argument must not contain any spaces. Aborting.")
  /\ fst (TesseractTrainer_init "eng" "text.txt" "helvetica" "arial.ttf"
         "font_properties" 25 0 "/usr/share/tessdata" None true ready_world)
     = inl (SystemExit "The arial.ttf file does not exist. Aborting.")
  /\ fst (TesseractTrainer_init "eng" "text.txt" "arial" "helvetica.ttf"
         "font_properties" 25 0 "/usr/share/tessdata" None true ready_world)
     = inl (SystemExit
              "The font properties of arial have not been defined in font_properties. Aborting.")
  /\ fst (TesseractTrainer_init "eng" "text.txt" "helvetica" "helvetica.ttf"
         "font_properties" 25 0 "/usr/local/tessdata" None true ready_world)
     = inl (SystemExit "The /usr/local/tessdata directory does not exist. Aborting.")
  /\ fst (TesseractTrainer_init "eng" "text.txt" (String "a" (String "009" "b"))
         "helvetica.ttf" "font_properties" 25 0 "/usr/share/tessdata" None true ready_world)
     = inl (SystemExit
              (msg_font_not_defined (String "a" (String "009" "b")) "font_properties")).
Proof. repeat split. Qed.

(** ** Dictionary stage and cleanup *)



(** [clean] after a training run, with and without a word list. *)
Example clean_trained_world :
  fst (clean (ready_trainer (Some "words.txt")) trained_world) = inr tt
  /\ trace (snd (clean (ready_trainer (Some "words.txt")) trained_world))
     = map Remove
         ["eng.helvetica.exp0.tr"; "eng.helvetica.exp0.txt"; "eng.helvetica.exp0.box";
          "eng.inttemp"; "eng.Microfeat"; "eng.normproto"; "eng.pffmtable";
          "eng.unicharset"; "eng.freq-dawg"; "mfunicharset"]
  /\ trace (snd (clean (ready_trainer None) trained_world))
     = map Remove
         ["eng.helvetica.exp0.tr"; "eng.helvetica.exp0.txt"; "eng.helvetica.exp0.box";
          "eng.inttemp"; "eng.Microfeat"; "eng.normproto"; "eng.pffmtable";
          "eng.unicharset"; "mfunicharset"]
  /\ fst (clean (ready_trainer (Some "words.txt")) ready_world)
     = inl (OSError "eng.helvetica.exp0.tr").
Proof. repeat split. Qed.

(** On the pages of the trainer, 3500 by 1024 from [(20, 20)], a text that
    starts with 4340 spaces fills the 35 lines of page 0 with spaces, and
    its first box line carries page number 1. *)
Example page_numbers_trainer_geometry :
  boxlines (fst (_fill_pages no_getsize
     (MultiPageTif_init (fun _ _ => tt) (spaces 4340 ++ "A") 3500 1024 20 20
        "helvetica" "helvetica.ttf" 25 0 "eng" true) []))
  = ["A 20 976 48 1004 1"].
Proof. vm_compute. reflexivity. Qed.

(** * Further properties of the layout *)

Section LayoutScheme.

Context {Font : Type}.
Variable getsize : Font -> string -> Z * Z.

Implicit Types (st : @fill_state Font) (s : @MultiPageTif Font).

Lemma fill_char_setup st (c : ascii) :
  set_boxlines (self (fill_char getsize st c)) [] = set_boxlines (self st) [].
Proof. now rewrite fill_char_self. Qed.

(** Induction over the layout: [I] holds between words, [J] inside a word
    with the characters still to write, [Q] of every word, and [P] of every
    box. *)
Lemma words_boxes_scheme (I : @fill_state Font -> Prop)
    (J : @fill_state Font -> list ascii -> Prop) (Q : string -> Prop)
    (P : box -> Prop) :
  (forall st w, I st -> Q w ->
     J (fill_break getsize st (w ++ " ")) (list_ascii_of_string (w ++ " "))) ->
  (forall st c cs, J st (c :: cs) -> J (fill_char getsize st c) cs) ->
  (forall st c cs, J st (c :: cs) -> Forall P (char_box st c)) ->
  (forall st, J st [] -> I st) ->
  forall ws st, I st -> Forall Q ws ->
    Forall P (words_boxes getsize st ws)
    /\ I (fold_left (fill_word getsize) ws st).
Proof.
  intros Hbreak Hchar Hbox Hend.
  assert (Hcs : forall cs st, J st cs ->
            Forall P (chars_boxes getsize st cs)
            /\ I (fold_left (fill_char getsize) cs st)).
  { induction cs as [|c cs IH]; intros st HJ; cbn [chars_boxes fold_left].
    - split; [constructor | now apply Hend].
    - destruct (IH _ (Hchar _ _ _ HJ)) as [HP HI].
      split; [| exact HI]. apply Forall_app. split; [| exact HP].
      exact (Hbox _ _ _ HJ). }
  induction ws as [|w ws IH]; intros st HI HQ; cbn [words_boxes fold_left].
  - split; [constructor | exact HI].
  - apply Forall_cons in HQ as [Hw Hws].
    destruct (Hcs _ _ (Hbreak _ _ HI Hw)) as [HP HI'].
    destruct (IH (fill_word getsize st w) HI' Hws) as [HP' HI''].
    split; [| exact HI'']. apply Forall_app. split; assumption.
Qed.

(** The boxes of a run of characters are those of [line_boxes] at the
    cursor. *)
Lemma chars_boxes_line (cs : list ascii) st :
  chars_boxes getsize st cs
  = line_boxes (H (self st)) (page_nb st) (x_pos st) (y_pos st) cs.
Proof.
  revert st. induction cs as [|c cs IH]; intros st; [reflexivity |].
  cbn [chars_boxes line_boxes]. rewrite IH, fill_char_self.
  unfold char_box, pil_coord_to_tesseract. cbn [fst snd].
  reflexivity.
Qed.

End LayoutScheme.

Section ReadingOrder.

Context {Font : Type}.
Variable getsize : Font -> string -> Z * Z.

Implicit Types (st : @fill_state Font).




(** The boxes of the successive words, word by word. *)
Lemma words_boxes_groups (ws : list string) st :
  exists groups : list (list box),
    words_boxes getsize st ws = concat groups
    /\ Forall2 (fun w g =>
         exists p x y,
           g = line_boxes (H (self st)) p x y (list_ascii_of_string (w ++ " ")))
         ws groups.
Proof.
  revert st. induction ws as [|w ws IH]; intros st; cbn [words_boxes].
  - exists []. split; [reflexivity | constructor].
  - destruct (IH (fill_word getsize st w)) as (groups & Hc & Hg).
    rewrite fill_word_H in Hg.
    exists (chars_boxes getsize (fill_break getsize st (w ++ " "))
              (list_ascii_of_string (w ++ " ")) :: groups).
    split; [cbn [concat]; now rewrite Hc |].
    constructor; [| exact Hg].
    rewrite chars_boxes_line, fill_break_self. eauto.
Qed.

End ReadingOrder.


(** X2: a word is never split: the boxes of the characters of one word are
    side by side, 28 apart, on one line of one page, whatever the width of
    the page. *)
Theorem words_are_not_split {Font : Type} (truetype : string -> Z -> Font)
    (getsize : Font -> string -> Z * Z) (txt : string) (pw ph sx sy : Z)
    (fname fpath : string) (fsize n : Z) (d : string) (v : bool)
    (disk : storage) :
  let mp := MultiPageTif_init truetype txt pw ph sx sy fname fpath fsize n d v in
  exists groups : list (list box),
    boxlines (fst (_fill_pages getsize mp disk)) = map render (concat groups)
    /\ Forall2 (fun w g =>
         exists p x y, g = line_boxes ph p x y (list_ascii_of_string (w ++ " ")))
         (Py.split " " txt) groups.
Proof.
  cbv zeta.
  destruct (words_boxes_groups getsize (Py.split " " txt)
              (FillState (MultiPageTif_init truetype txt pw ph sx sy fname fpath fsize n d v)
                 (_new_tif (MultiPageTif_init truetype txt pw ph sx sy fname fpath fsize n d v)
                    "white") 0 sx sy disk)) as (groups & Hc & Hg).
  exists groups. split; [| exact Hg].
  rewrite fill_pages_boxlines. cbn [boxlines MultiPageTif_init app text start_x start_y].
  now rewrite <- Hc.
Qed.

(** X3: when every word of the text, with its trailing space, is narrower
    than the room between the left margin and the page width, every box
    starts at or after the left margin and ends before the page width. *)
Theorem boxes_within_width {Font : Type} (truetype : string -> Z -> Font)
    (getsize : Font -> string -> Z * Z) (txt : string) (pw ph sx sy : Z)
    (fname fpath : string) (fsize n : Z) (d : string) (v : bool)
    (disk : storage) :
  Forall (fun w => pw - sx - Py.len (w ++ " ") * 28 > 0) (Py.split " " txt) ->
  let mp := MultiPageTif_init truetype txt pw ph sx sy fname fpath fsize n d v in
  exists bs : list box,
    boxlines (fst (_fill_pages getsize mp disk)) = map render bs
    /\ Forall (fun b => sx <= b_x0 b /\ b_x1 b < pw) bs.
Proof.
  intros Hfit. cbv zeta.
  eexists. split; [rewrite fill_pages_boxlines; reflexivity |].
  cbn [text start_x start_y MultiPageTif_init].
  eapply (words_boxes_scheme getsize
            (fun st => W (self st) = pw /\ start_x (self st) = sx /\ sx <= x_pos st)
            (fun st cs => W (self st) = pw /\ start_x (self st) = sx /\ sx <= x_pos st
                          /\ x_pos st + 28 * Z.of_nat (length cs) < pw)
            (fun w => pw - sx - Py.len (w ++ " ") * 28 > 0)).
  - intros st w (HW & Hsx & Hx) Hw. rewrite fill_break_self.
    split; [exact HW |]. split; [exact Hsx |].
    rewrite length_chars. fold (Py.len (w ++ " ")).
    unfold fill_break, word_fits_in_line. rewrite HW, Hsx.
    destruct (Z.gtb_spec (pw - x_pos st - Py.len (w ++ " ") * 28) 0); cbn [negb].
    + lia.
    + destruct (newline_fits_in_page _ _ _); cbn [x_pos]; lia.
  - intros st c cs (HW & Hsx & Hx & Hfits). rewrite fill_char_self.
    cbn [W start_x set_boxlines fill_char x_pos]. cbn [length] in Hfits. lia.
  - intros st c cs (HW & Hsx & Hx & Hfits). unfold char_box.
    destruct (Ascii.eqb c " "); constructor; [| constructor].
    cbn [length] in Hfits. cbn. lia.
  - intros st (HW & Hsx & Hx & _). auto.
  - cbn. lia.
  - exact Hfit.
Qed.

Lemma boxes_within_width_witness :
  exists bs : list box,
    boxlines (fst (_fill_pages no_getsize
       (MultiPageTif_init (fun _ _ => tt) "AB CD" 200 100 20 20
          "helvetica" "helvetica.ttf" 25 0 "eng" true) [])) = map render bs
    /\ Forall (fun b => 20 <= b_x0 b /\ b_x1 b < 200) bs.
Proof.
  apply (boxes_within_width (fun _ _ => tt) no_getsize "AB CD" 200 100 20 20).
  change (Py.split " " "AB CD") with ["AB"; "CD"].
  repeat (constructor; try reflexivity).
Defined.

(** X4: when the first line fits the page ([start_y + 28 <= H]), every box
    lies between the bottom of the page and the top margin: its lower edge
    is not below 0 and its upper edge not above [H - start_y]. *)
Theorem boxes_within_height {Font : Type} (truetype : string -> Z -> Font)
    (getsize : Font -> string -> Z * Z) (txt : string) (pw ph sx sy : Z)
    (fname fpath : string) (fsize n : Z) (d : string) (v : bool)
    (disk : storage) :
  sy + 28 <= ph ->
  let mp := MultiPageTif_init truetype txt pw ph sx sy fname fpath fsize n d v in
  exists bs : list box,
    boxlines (fst (_fill_pages getsize mp disk)) = map render bs
    /\ Forall (fun b => 0 <= b_y0 b /\ b_y1 b <= ph - sy) bs.
Proof.
  intros Hfirst. cbv zeta.
  eexists. split; [rewrite fill_pages_boxlines; reflexivity |].
  cbn [text start_x start_y MultiPageTif_init].
  eapply (words_boxes_scheme getsize
            (fun st => H (self st) = ph /\ start_y (self st) = sy
                       /\ sy <= y_pos st /\ y_pos st + 28 <= ph)
            (fun st _ => H (self st) = ph /\ start_y (self st) = sy
                         /\ sy <= y_pos st /\ y_pos st + 28 <= ph)
            (fun _ => True)).
  - intros st w (HH & Hsy & Hy & Hfits) _. rewrite fill_break_self.
    split; [exact HH |]. split; [exact Hsy |].
    unfold fill_break, newline_fits_in_page. rewrite HH, Hsy.
    destruct (word_fits_in_line _ _ _); cbn [negb]; [lia |].
    destruct (Z.gtb_spec (ph - y_pos st - 2 * 28) 0); cbn [y_pos]; lia.
  - intros st c cs (HH & Hsy & Hy & Hfits). rewrite fill_char_self.
    cbn [H start_y set_boxlines fill_char y_pos]. lia.
  - intros st c cs (HH & Hsy & Hy & Hfits). unfold char_box.
    destruct (Ascii.eqb c " "); constructor; [| constructor].
    unfold pil_coord_to_tesseract. cbn. lia.
  - intros st HI. exact HI.
  - cbn. lia.
  - apply Forall_forall. trivial.
Qed.

Lemma boxes_within_height_witness :
  exists bs : list box,
    boxlines (fst (_fill_pages no_getsize
       (MultiPageTif_init (fun _ _ => tt) "AB CD" 100 100 20 20
          "helvetica" "helvetica.ttf" 25 0 "eng" true) [])) = map render bs
    /\ Forall (fun b => 0 <= b_y0 b /\ b_y1 b <= 100 - 20) bs.
Proof.
  apply (boxes_within_height (fun _ _ => tt) no_getsize "AB CD" 100 100 20 20).
  lia.
Defined.

(** Giving every word of a text its space back gives the text followed by
    one space. *)
Lemma split_words_chars (t : string) :
  concat (map (fun w => list_ascii_of_string (w ++ " ")) (Py.split " " t))
  = list_ascii_of_string (t ++ " ").
Proof.
  induction t as [|a t IH]; [reflexivity |].
  cbn [Py.split]. destruct (Ascii.eqb a " ") eqn:E.
  - apply Ascii.eqb_eq in E. subst a. cbn [map concat]. now rewrite IH.
  - pose proof (split_not_nil " " t) as Hne.
    destruct (Py.split " " t) as [|w ws]; [contradiction |].
    cbn [map concat] in *.
    change (String a w ++ " ") with (String a (w ++ " ")).
    change (String a t ++ " ") with (String a (t ++ " ")).
    cbn [list_ascii_of_string app]. now rewrite IH.
Qed.

Lemma append_cancel_r (a b c : string) : a ++ c = b ++ c -> a = b.
Proof.
  intros E. apply (f_equal list_ascii_of_string) in E.
  rewrite !chars_append in E. apply app_inv_tail in E.
  rewrite <- (string_of_list_ascii_of_string a), E.
  apply string_of_list_ascii_of_string.
Qed.

Lemma page_name_inj (i j : nat) : page_name i = page_name j -> i = j.
Proof.
  unfold page_name. intros E.
  change ("page" ++ ?s) with (String "p" (String "a" (String "g" (String "e" s)))) in E.
  injection E as E. apply append_cancel_r in E.
  apply (f_equal parse_int) in E. rewrite !parse_int_str in E.
  injection E as E. lia.
Qed.

Local Open Scope list_scope.

Section Pages.

Context {Font : Type}.
Variable getsize : Font -> string -> Z * Z.

Implicit Types (st : @fill_state Font).

Lemma drawn_on_snoc (d : @storage Font) (f : string * image) :
  drawn_on (d ++ [f]) = drawn_on d ++ im_drawn (snd f).
Proof. unfold drawn_on. rewrite map_app, concat_app. cbn. now rewrite app_nil_r. Qed.

Lemma boxes_of_pages_snoc (h : Z) (d : @storage Font) (f : string * image) :
  boxes_of_pages h (d ++ [f])
  = boxes_of_pages h d ++ omap (box_of_drawn h (length d)) (im_drawn (snd f)).
Proof.
  unfold boxes_of_pages. rewrite imap_app, concat_app. cbn.
  now rewrite app_nil_r, Nat.add_0_r.
Qed.

(** What has been drawn so far, on the saved pages and on the current one. *)
Lemma fill_break_drawn st (word : string) :
  drawn_on (disk (fill_break getsize st word))
    ++ im_drawn (tif (fill_break getsize st word))
  = drawn_on (disk st) ++ im_drawn (tif st).
Proof.
  unfold fill_break.
  destruct (word_fits_in_line _ _ _); cbn [negb]; [reflexivity |].
  destruct (newline_fits_in_page _ _ _); [reflexivity |].
  cbn [disk tif _new_tif im_drawn]. unfold _save_tif.
  now rewrite drawn_on_snoc, app_nil_r.
Qed.

Lemma fill_chars_drawn (cs : list ascii) st :
  map dt_char (drawn_on (disk (fold_left (fill_char getsize) cs st))
               ++ im_drawn (tif (fold_left (fill_char getsize) cs st)))
  = map dt_char (drawn_on (disk st) ++ im_drawn (tif st)) ++ cs.
Proof.
  revert st. induction cs as [|c cs IH]; intros st; cbn [fold_left].
  - now rewrite app_nil_r.
  - rewrite IH. cbn [fill_char disk tif draw_text im_drawn].
    rewrite !map_app. cbn [map dt_char]. now rewrite <- !app_assoc.
Qed.

Lemma fill_words_drawn (ws : list string) st :
  map dt_char (drawn_on (disk (fold_left (fill_word getsize) ws st))
               ++ im_drawn (tif (fold_left (fill_word getsize) ws st)))
  = map dt_char (drawn_on (disk st) ++ im_drawn (tif st))
    ++ concat (map (fun w => list_ascii_of_string (w +:+ " ")) ws).
Proof.
  revert st. induction ws as [|w ws IH]; intros st; cbn [fold_left map concat].
  - now rewrite app_nil_r.
  - rewrite IH. unfold fill_word. rewrite fill_chars_drawn, fill_break_drawn.
    now rewrite <- app_assoc.
Qed.

(** The boxes of the glyphs drawn so far, for a state whose page number is
    the number of saved pages. *)
Lemma fill_char_glyph_boxes (h : Z) st (c : ascii) :
  H (self st) = h -> page_nb st = Z.of_nat (length (disk st)) ->
  omap (box_of_drawn h (length (disk (fill_char getsize st c))))
    (im_drawn (tif (fill_char getsize st c)))
  = omap (box_of_drawn h (length (disk st))) (im_drawn (tif st)) ++ char_box st c.
Proof.
  intros HH Hp. cbn [fill_char disk tif draw_text im_drawn].
  rewrite omap_app. f_equal. unfold char_box, box_of_drawn, pil_coord_to_tesseract.
  cbn. rewrite HH, Hp.
  destruct (Ascii.eqb c " "); reflexivity.
Qed.

Lemma fill_break_glyph_boxes (h : Z) st (word : string) :
  page_nb st = Z.of_nat (length (disk st)) ->
  page_nb (fill_break getsize st word)
  = Z.of_nat (length (disk (fill_break getsize st word)))
  /\ boxes_of_pages h (disk (fill_break getsize st word))
       ++ omap (box_of_drawn h (length (disk (fill_break getsize st word))))
            (im_drawn (tif (fill_break getsize st word)))
     = boxes_of_pages h (disk st)
       ++ omap (box_of_drawn h (length (disk st))) (im_drawn (tif st)).
Proof.
  intros Hp. unfold fill_break.
  destruct (word_fits_in_line _ _ _); cbn [negb]; [now split |].
  destruct (newline_fits_in_page _ _ _); [now split |].
  cbn [disk tif page_nb _new_tif im_drawn omap]. unfold _save_tif.
  rewrite boxes_of_pages_snoc, length_app, app_nil_r. cbn [length snd].
  split; [lia | reflexivity].
Qed.

Lemma fill_chars_glyph_boxes (h : Z) (cs : list ascii) st :
  H (self st) = h -> page_nb st = Z.of_nat (length (disk st)) ->
  omap (box_of_drawn h (length (disk st)))
    (im_drawn (tif (fold_left (fill_char getsize) cs st)))
  = omap (box_of_drawn h (length (disk st))) (im_drawn (tif st))
    ++ chars_boxes getsize st cs.
Proof.
  revert st. induction cs as [|c cs IH]; intros st HH Hp; cbn [fold_left chars_boxes].
  - now rewrite app_nil_r.
  - specialize (IH (fill_char getsize st c)).
    rewrite fill_char_H in IH. cbn [fill_char disk page_nb] in IH.
    rewrite (IH HH Hp).
    pose proof (fill_char_glyph_boxes h st c HH Hp) as Hc.
    cbn [fill_char disk] in Hc. cbn [fill_char tif].
    cbn [fill_char tif] in Hc. rewrite Hc. now rewrite <- app_assoc.
Qed.

Lemma fill_words_glyph_boxes (h : Z) (ws : list string) st :
  H (self st) = h -> page_nb st = Z.of_nat (length (disk st)) ->
  let st' := fold_left (fill_word getsize) ws st in
  page_nb st' = Z.of_nat (length (disk st'))
  /\ boxes_of_pages h (disk st')
       ++ omap (box_of_drawn h (length (disk st'))) (im_drawn (tif st'))
     = (boxes_of_pages h (disk st)
        ++ omap (box_of_drawn h (length (disk st))) (im_drawn (tif st)))
       ++ words_boxes getsize st ws.
Proof.
  revert st. induction ws as [|w ws IH]; intros st HH Hp;
    cbn [fold_left words_boxes]; cbv zeta.
  - now rewrite app_nil_r.
  - destruct (fill_break_glyph_boxes h st (w +:+ " ") Hp) as [Hp1 Hb1].
    set (st1 := fill_break getsize st (w +:+ " ")) in *.
    assert (HH1 : H (self st1) = h) by (unfold st1; now rewrite fill_break_self).
    destruct (fill_chars_spec getsize (list_ascii_of_string (w +:+ " ")) st1)
      as (_ & Hp2 & _ & _ & Hd2).
    cbv zeta in Hp2, Hd2.
    assert (Hw : fill_word getsize st w
                 = fold_left (fill_char getsize) (list_ascii_of_string (w +:+ " ")) st1)
      by reflexivity.
    specialize (IH (fill_word getsize st w)).
    rewrite fill_word_H in IH. cbv zeta in IH.
    destruct IH as [IHp IHb]; [exact HH | rewrite Hw, Hp2, Hd2; exact Hp1 |].
    split; [exact IHp |]. rewrite IHb. rewrite Hw at 1 2 3. rewrite Hd2.
    rewrite (fill_chars_glyph_boxes h _ st1 HH1 Hp1).
    rewrite !app_assoc. now rewrite Hb1.
Qed.

(** The saved pages are numbered from 0 in saving order. *)
Lemma fill_words_pages (ws : list string) st :
  indiv_page_prefix (self st) = "page" ->
  page_nb st = Z.of_nat (length (disk st)) ->
  map fst (disk st) = map page_name (seq 0 (length (disk st))) ->
  let st' := fold_left (fill_word getsize) ws st in
  indiv_page_prefix (self st') = "page"
  /\ page_nb st' = Z.of_nat (length (disk st'))
  /\ map fst (disk st') = map page_name (seq 0 (length (disk st'))).
Proof.
  revert st. induction ws as [|w ws IH]; intros st Hpre Hp Hn;
    cbn [fold_left]; cbv zeta; [now repeat split |].
  apply IH.
  - now rewrite fill_word_self.
  - rewrite fill_word_page. unfold fill_word.
    destruct (fill_chars_spec getsize (list_ascii_of_string (w +:+ " "))
                (fill_break getsize st (w +:+ " "))) as (_ & _ & _ & _ & Hd).
    cbv zeta in Hd. rewrite Hd.
    now apply (fill_break_glyph_boxes 0).
  - unfold fill_word.
    destruct (fill_chars_spec getsize (list_ascii_of_string (w +:+ " "))
                (fill_break getsize st (w +:+ " "))) as (_ & _ & _ & _ & Hd).
    cbv zeta in Hd. rewrite Hd. unfold fill_break.
    destruct (word_fits_in_line _ _ _); cbn [negb]; [exact Hn |].
    destruct (newline_fits_in_page _ _ _); [exact Hn |].
    cbn [disk]. unfold _save_tif.
    rewrite map_app, length_app, Hn, Hpre, Hp. cbn [length map fst].
    rewrite Nat.add_1_r, seq_S, map_app. reflexivity.
Qed.

(** No box is on a later page than the current one. *)
Lemma words_boxes_page_bound (ws : list string) st :
  Forall (fun b => b_page b <= page_nb (fold_left (fill_word getsize) ws st))
    (words_boxes getsize st ws).
Proof.
  revert st. induction ws as [|w ws IH]; intros st; cbn [words_boxes fold_left].
  - constructor.
  - apply Forall_app. split; [| apply IH].
    eapply Forall_impl; [apply chars_boxes_shape |].
    intros b (_ & Hb & _). rewrite Hb, <- fill_word_page.
    apply fill_words_page.
Qed.

End Pages.

(** X5: the page files are saved as [page0.tif], [page1.tif], ... in this
    order, without a gap and without a repeated name, and every box line
    carries the number of one of them. *)
Theorem saved_pages_numbered {Font : Type} (truetype : string -> Z -> Font)
    (getsize : Font -> string -> Z * Z) (txt : string) (pw ph sx sy : Z)
    (fname fpath : string) (fsize n : Z) (d : string) (v : bool) :
  let mp := MultiPageTif_init truetype txt pw ph sx sy fname fpath fsize n d v in
  exists last : nat,
    map fst (snd (_fill_pages getsize mp [])) = map page_name (seq 0 (S last))
    /\ NoDup (map fst (snd (_fill_pages getsize mp [])))
    /\ exists bs : list box,
         boxlines (fst (_fill_pages getsize mp [])) = map render bs
         /\ Forall (fun b => 0 <= b_page b <= Z.of_nat last) bs.
Proof.
  cbv zeta.
  set (mp := MultiPageTif_init truetype txt pw ph sx sy fname fpath fsize n d v).
  set (st0 := FillState mp (_new_tif mp "white") 0 sx sy []).
  set (st' := fill_loop getsize mp []).
  assert (Hinv : indiv_page_prefix (self st') = "page"
                 /\ page_nb st' = Z.of_nat (length (disk st'))
                 /\ map fst (disk st') = map page_name (seq 0 (length (disk st'))))
    by (apply (fill_words_pages getsize (Py.split " " txt) st0); reflexivity).
  destruct Hinv as (Hpre & Hp & Hn).
  assert (Hnames : map fst (snd (_fill_pages getsize mp []))
                   = map page_name (seq 0 (S (length (disk st'))))).
  { unfold _fill_pages, _save_tif. fold st'. cbn [snd].
    rewrite map_app, Hn, Hpre, Hp, seq_S, map_app. reflexivity. }
  exists (length (disk st')).
  split; [exact Hnames |]. split.
  { rewrite Hnames. change (NoDup (page_name <$> seq 0 (S (length (disk st'))))).
    apply NoDup_fmap_2; [| apply NoDup_seq].
    intros i j. apply page_name_inj. }
  eexists. split; [rewrite fill_pages_boxlines; reflexivity |].
  apply Forall_and. split.
  - eapply Forall_impl; [apply words_boxes_shape |]. now intros b (_ & Hb & _).
  - rewrite <- Hp. apply words_boxes_page_bound.
Qed.

(** X6: every character of the text, spaces included, is drawn exactly once
    and in the order of the text, followed by one more space: the glyphs of
    the saved pages, read page after page, spell the text and a space. *)
Theorem drawn_glyphs_spell_text {Font : Type} (truetype : string -> Z -> Font)
    (getsize : Font -> string -> Z * Z) (txt : string) (pw ph sx sy : Z)
    (fname fpath : string) (fsize n : Z) (d : string) (v : bool) :
  let mp := MultiPageTif_init truetype txt pw ph sx sy fname fpath fsize n d v in
  map dt_char (drawn_on (snd (_fill_pages getsize mp [])))
  = list_ascii_of_string (txt +:+ " ").
Proof.
  cbv zeta. unfold _fill_pages, _save_tif. cbn [snd].
  rewrite drawn_on_snoc. cbn [snd]. unfold fill_loop.
  rewrite fill_words_drawn. cbn [disk tif _new_tif im_drawn drawn_on map concat app].
  cbn [text MultiPageTif_init]. apply split_words_chars.
Qed.

(** X7: the box lines describe the saved pages: reading the glyphs of page
    0, then of page 1, and so on, and giving each glyph other than a space
    the box 28 wide and 28 high at the place where it was drawn, mapped to
    bottom-left-origin coordinates, gives exactly the box lines. *)
Theorem boxlines_match_pages {Font : Type} (truetype : string -> Z -> Font)
    (getsize : Font -> string -> Z * Z) (txt : string) (pw ph sx sy : Z)
    (fname fpath : string) (fsize n : Z) (d : string) (v : bool) :
  let mp := MultiPageTif_init truetype txt pw ph sx sy fname fpath fsize n d v in
  boxlines (fst (_fill_pages getsize mp []))
  = map render (boxes_of_pages ph (snd (_fill_pages getsize mp []))).
Proof.
  cbv zeta. rewrite fill_pages_boxlines.
  cbn [boxlines MultiPageTif_init app]. f_equal.
  unfold _fill_pages, _save_tif. cbn [snd].
  rewrite boxes_of_pages_snoc. cbn [snd]. unfold fill_loop.
  set (mp := MultiPageTif_init truetype txt pw ph sx sy fname fpath fsize n d v).
  destruct (fill_words_glyph_boxes getsize ph (text mp)
              (FillState mp (_new_tif mp "white") 0 (start_x mp) (start_y mp) []))
    as [_ Hb]; [reflexivity | reflexivity |].
  cbv zeta in Hb. rewrite Hb. reflexivity.
Qed.

Section Rerun.

Context {F1 F2 : Type}.
Variable getsize1 : F1 -> string -> Z * Z.
Variable getsize2 : F2 -> string -> Z * Z.

Lemma fill_break_same_layout (st : @fill_state F1) (st' : @fill_state F2)
    (word : string) :
  same_layout st st' ->
  same_layout (fill_break getsize1 st word) (fill_break getsize2 st' word).
Proof.
  intros (HW & HH & Hsx & Hsy & Hp & Hx & Hy). unfold same_layout.
  rewrite !fill_break_self. unfold fill_break.
  rewrite <- HW, <- HH, <- Hsx, <- Hsy, <- Hx, <- Hy, <- Hp.
  destruct (word_fits_in_line _ _ _); cbn [negb]; [now repeat split |].
  destruct (newline_fits_in_page _ _ _); cbn [page_nb x_pos y_pos]; now repeat split.
Qed.

Lemma fill_word_same_layout (st : @fill_state F1) (st' : @fill_state F2)
    (w : string) :
  same_layout st st' ->
  same_layout (fill_word getsize1 st w) (fill_word getsize2 st' w).
Proof.
  intros Hs. pose proof (fill_break_same_layout st st' (w +:+ " ") Hs)
    as (HW & HH & Hsx & Hsy & Hp & Hx & Hy).
  rewrite !fill_break_self in HW, HH, Hsx, Hsy.
  unfold same_layout. rewrite !fill_word_self. unfold fill_word.
  destruct (fill_chars_spec getsize1 (list_ascii_of_string (w +:+ " "))
              (fill_break getsize1 st (w +:+ " "))) as (_ & Hp1 & Hx1 & Hy1 & _).
  destruct (fill_chars_spec getsize2 (list_ascii_of_string (w +:+ " "))
              (fill_break getsize2 st' (w +:+ " "))) as (_ & Hp2 & Hx2 & Hy2 & _).
  cbv zeta in *. rewrite Hp1, Hx1, Hy1, Hp2, Hx2, Hy2, Hp, Hx, Hy.
  now repeat split.
Qed.

(** The boxes depend on the page geometry and on the cursor only. *)
Lemma words_boxes_same_layout (ws : list string) (st : @fill_state F1)
    (st' : @fill_state F2) :
  same_layout st st' ->
  words_boxes getsize1 st ws = words_boxes getsize2 st' ws.
Proof.
  revert st st'. induction ws as [|w ws IH]; intros st st' Hs; [reflexivity |].
  cbn [words_boxes].
  rewrite (IH _ _ (fill_word_same_layout st st' w Hs)). f_equal.
  rewrite !chars_boxes_line, !fill_break_self.
  destruct (fill_break_same_layout st st' (w +:+ " ") Hs)
    as (_ & _ & _ & _ & Hp & Hx & Hy).
  destruct Hs as (_ & HH & _). now rewrite HH, Hp, Hx, Hy.
Qed.

End Rerun.

(** X8: [_fill_pages] only appends to [self.boxlines] and changes no other
    attribute; it does not start from an empty list, so running it a second
    time on the same object appends the same lines once more. *)
Theorem fill_pages_appends {Font : Type} (getsize : Font -> string -> Z * Z)
    (s : @MultiPageTif Font) (d d' : storage) :
  exists new : list string,
    boxlines (fst (_fill_pages getsize s d)) = boxlines s ++ new
    /\ set_boxlines (fst (_fill_pages getsize s d)) (boxlines s) = s
    /\ boxlines (fst (_fill_pages getsize (fst (_fill_pages getsize s d)) d'))
       = boxlines s ++ new ++ new.
Proof.
  assert (Hself : exists l, fst (_fill_pages getsize s d) = set_boxlines s l).
  { eexists. unfold _fill_pages, fill_loop. cbn [fst]. now rewrite fill_words_self. }
  destruct Hself as [l Hl].
  pose proof (fill_pages_boxlines getsize s d) as Hb.
  eexists. split; [exact Hb |].
  split; [rewrite Hl; exact (set_boxlines_same s) |].
  rewrite (fill_pages_boxlines getsize (fst (_fill_pages getsize s d)) d'), Hb.
  rewrite <- app_assoc. f_equal. f_equal. f_equal. rewrite Hl.
  cbn [text start_x start_y set_boxlines].
  apply words_boxes_same_layout. now repeat split.
Qed.

(** ** Further properties of strings, box files and prefixes *)

Lemma contains_append (c : ascii) (a b : string) :
  Py.contains c (a +:+ b) = Py.contains c a || Py.contains c b.
Proof.
  induction a as [|x a IH]; simpl; [reflexivity |].
  rewrite IH. now rewrite orb_assoc.
Qed.

Lemma contains_of_In (c : ascii) (s : string) :
  In c (list_ascii_of_string s) -> Py.contains c s = true.
Proof.
  induction s as [|x s IH]; cbn; [tauto |].
  intros [-> | Hin]; [now rewrite Ascii.eqb_refl | rewrite (IH Hin); apply orb_true_r].
Qed.

(** A decimal numeral is made of digits and at most a minus sign. *)
Lemma str_chars (c : ascii) (n : Z) :
  Py.contains c (Py.str n) = true ->
  Py.contains c "-0123456789" = true.
Proof.
  assert (Hu : forall d, Py.contains c (NilEmpty.string_of_uint d) = true ->
                         Py.contains c "-0123456789" = true).
  { induction d; cbn [NilEmpty.string_of_uint Py.contains]; intros Hc;
      try discriminate;
      (apply orb_true_iff in Hc as [Hc | Hc]; [| now apply IHd]);
      apply Ascii.eqb_eq in Hc; subst c; reflexivity. }
  assert (Hz : forall d, Py.contains c (NilZero.string_of_uint d) = true ->
                         Py.contains c "-0123456789" = true).
  { intros d. destruct d; cbn [NilZero.string_of_uint]; try apply Hu.
    cbn [Py.contains]. intros Hc. rewrite orb_false_r in Hc.
    apply Ascii.eqb_eq in Hc. subst c. reflexivity. }
  unfold Py.str. destruct (Z.to_int n) as [d|d]; cbn [NilZero.string_of_int].
  - apply Hz.
  - cbn [Py.contains]. intros Hc. apply orb_true_iff in Hc as [Hc | Hc].
    + apply Ascii.eqb_eq in Hc. subst c. reflexivity.
    + exact (Hz d Hc).
Qed.

Lemma str_no_char (c : ascii) (n : Z) :
  Py.contains c "-0123456789" = false -> Py.contains c (Py.str n) = false.
Proof.
  intros Hc. destruct (Py.contains c (Py.str n)) eqn:E; [| reflexivity].
  apply str_chars in E. congruence.
Qed.

(** [replace] leaves no occurrence of the replaced character. *)
Lemma replace_no_old (old new : ascii) (s : string) :
  old <> new -> Py.contains old (Py.replace old new s) = false.
Proof.
  intros Hne. induction s as [|a s IH]; [reflexivity |].
  cbn [Py.replace Py.contains]. rewrite IH, orb_false_r.
  destruct (Ascii.eqb a old) eqn:E.
  - apply Ascii.eqb_neq. congruence.
  - exact E.
Qed.

(** A rendered box has a newline in it only as its character. *)
Lemma render_no_newline (b : box) :
  b_char b <> "010"%char -> Py.contains "010" (render b) = false.
Proof.
  intros Hc. unfold render, boxline_format.
  rewrite !contains_append, !str_no_char by reflexivity.
  cbn. rewrite !orb_false_r. now apply Ascii.eqb_neq.
Qed.

Lemma split_lines (lines : list string) :
  Forall (fun l => Py.contains "010" l = false) lines ->
  Py.split "010"
    (fold_right (fun line rest => line +:+ String "010" "" +:+ rest) "" lines)
  = lines ++ [""].
Proof.
  induction 1 as [|l lines Hl _ IH]; [reflexivity |].
  cbn [fold_right app]. now rewrite (split_append_field _ _ _ Hl), IH.
Qed.

(** The box file of a text without newline, line by line. *)
Lemma boxfile_split_lines {Font : Type} (truetype : string -> Z -> Font)
    (getsize : Font -> string -> Z * Z) (txt : string) (pw ph sx sy : Z)
    (fname fpath : string) (fsize n : Z) (d : string) (v : bool)
    (disk : storage) :
  Py.contains "010" txt = false ->
  Py.split "010"
    (snd (generate_boxfile (fst (_fill_pages getsize
       (MultiPageTif_init truetype txt pw ph sx sy fname fpath fsize n d v) disk))))
  = boxlines (fst (_fill_pages getsize
       (MultiPageTif_init truetype txt pw ph sx sy fname fpath fsize n d v) disk)) ++ [""].
Proof.
  intros Hnl.
  rewrite generate_boxfile_text, fill_pages_boxlines.
  cbn [boxlines MultiPageTif_init app text start_x start_y].
  set (bs := words_boxes getsize _ _).
  apply split_lines. apply Forall_map.
  assert (Hc : map b_char bs = nonspace_chars txt)
    by (unfold bs; now rewrite words_boxes_chars, split_nonspace_chars).
  apply Forall_forall. intros b Hb. apply render_no_newline. intros Hbc.
  assert (Hin : b_char b ∈ nonspace_chars txt).
  { rewrite <- Hc. apply list_elem_of_In, in_map, list_elem_of_In, Hb. }
  unfold nonspace_chars in Hin. apply list_elem_of_filter in Hin as [_ Hin].
  apply list_elem_of_In, contains_of_In in Hin. rewrite Hbc in Hin. congruence.
Qed.

(** X9: when the text has no newline character in it, the box file read
    back line by line gives the box lines, one per line, and an empty
    string after the last newline; and every line parses back to its
    box. *)
Theorem boxfile_round_trip {Font : Type} (truetype : string -> Z -> Font)
    (getsize : Font -> string -> Z * Z) (txt : string) (pw ph sx sy : Z)
    (fname fpath : string) (fsize n : Z) (d : string) (v : bool)
    (disk : storage) :
  Py.contains "010" txt = false ->
  let mp := MultiPageTif_init truetype txt pw ph sx sy fname fpath fsize n d v in
  let mp' := fst (_fill_pages getsize mp disk) in
  Py.split "010" (snd (generate_boxfile mp')) = boxlines mp' ++ [""]
  /\ exists bs : list box,
       boxlines mp' = map render bs
       /\ map parse_boxline (boxlines mp') = map Some bs.
Proof.
  intros Hnl. cbv zeta. split; [now apply boxfile_split_lines |].
  rewrite fill_pages_boxlines.
  cbn [boxlines MultiPageTif_init app text start_x start_y].
  eexists. split; [reflexivity |].
  rewrite map_map. apply map_ext. intros b. apply parse_render.
Qed.

Lemma boxfile_round_trip_witness :
  Py.split "010"
    (snd (generate_boxfile (fst (_fill_pages no_getsize
       (MultiPageTif_init (fun _ _ => tt) "AB CD" 3500 1024 20 20
          "helvetica" "helvetica.ttf" 25 0 "eng" true) []))))
  = boxlines (fst (_fill_pages no_getsize
       (MultiPageTif_init (fun _ _ => tt) "AB CD" 3500 1024 20 20
          "helvetica" "helvetica.ttf" 25 0 "eng" true) [])) ++ [""].
Proof.
  apply (boxfile_round_trip (fun _ _ => tt) no_getsize "AB CD" 3500 1024 20 20
           "helvetica" "helvetica.ttf" 25 0 "eng" true []).
  reflexivity.
Defined.

(** ** Further properties of the trainer *)

(** What a successful [__init__] tells about the world and the trainer. *)
Lemma TesseractTrainer_init_inv (d text fname fpath fprops : string)
    (fsize n : Z) (tess : string) (wl : option string) (v : bool)
    (w w' : world) (t : TesseractTrainer) :
  TesseractTrainer_init d text fname fpath fprops fsize n tess wl v w = (inr t, w') ->
  exists contents fp,
    files w !! text = Some contents
    /\ Py.contains " " fname = false
    /\ path_exists w fpath = true
    /\ files w !! fprops = Some fp
    /\ fname ∈ Py.split_ws fp
    /\ path_exists w tess = true
    /\ w' = w
    /\ Py.contains "010" (training_text t) = false
    /\ t = {| training_text := Py.replace "010" " " contents;
              tt_exp_number := n;
              tt_dictionary_name := d;
              tt_font_name := fname;
              font_path := fpath;
              font_size := fsize;
              tt_prefix := d +:+ "." +:+ fname +:+ ".exp" +:+ Py.str n;
              font_properties := fprops;
              tessdata_path := tess;
              word_list := wl;
              tt_verbose := v |}.
Proof.
  unfold TesseractTrainer_init, bind, open_read, exists_, raise, ret.
  destruct (files w !! text) as [contents|]; [| discriminate].
  destruct (Py.contains " " fname); [discriminate |].
  destruct (path_exists w fpath); cbn [negb]; [| discriminate].
  destruct (files w !! fprops) as [fp|]; [| discriminate].
  destruct (bool_decide (fname ∈ Py.split_ws fp)) eqn:Hreg; cbn [negb];
    [| discriminate].
  destruct (path_exists w tess); cbn [negb]; [| discriminate].
  intros [= <- <-]. exists contents, fp.
  apply bool_decide_eq_true in Hreg.
  repeat (split; [first [reflexivity | assumption] |]).
  split; [| reflexivity].
  cbn [training_text]. now apply replace_no_old.
Qed.



(** ** Further properties of cleanup *)

Lemma remove_all_others (l : list string) (w : world) (p : string) :
  p ∉ l ->
  files (snd (remove_all l w)) !! p = files w !! p
  /\ dirs (snd (remove_all l w)) = dirs w.
Proof.
  revert w. induction l as [|q l IH]; intros w Hp; [now split |].
  apply not_elem_of_cons in Hp as [Hne Hp].
  rewrite remove_all_cons. destruct (files w !! q) as [c|]; [| now split].
  destruct (IH (World (delete q (files w)) (dirs w) (trace w ++ [Remove q])) Hp)
    as [Hf Hd].
  split; [| exact Hd]. rewrite Hf. cbn [files]. now apply lookup_delete_ne.
Qed.

Lemma remove_all_dirs (l : list string) (w : world) :
  dirs (snd (remove_all l w)) = dirs w.
Proof.
  revert w. induction l as [|q l IH]; intros w; [reflexivity |].
  rewrite remove_all_cons. destruct (files w !! q) as [c|]; [| reflexivity].
  now rewrite IH.
Qed.

Lemma remove_all_absent (l : list string) (w : world) (p : string) :
  files w !! p = None -> files (snd (remove_all l w)) !! p = None.
Proof.
  revert w. induction l as [|q l IH]; intros w Hp; [exact Hp |].
  rewrite remove_all_cons. destruct (files w !! q) as [c|]; [| exact Hp].
  apply IH. cbn [files]. rewrite lookup_delete. case_decide; [reflexivity | exact Hp].
Qed.

(** After removals that all succeed, none of the files is left. *)
Lemma remove_all_gone (l : list string) (w : world) (p : string) :
  fst (remove_all l w) = inr tt -> p ∈ l ->
  files (snd (remove_all l w)) !! p = None.
Proof.
  revert w. induction l as [|q l IH]; intros w Hok Hp; [now apply elem_of_nil in Hp |].
  rewrite remove_all_cons in *. destruct (files w !! q) as [c|]; [| discriminate].
  destruct (decide (p = q)) as [-> | Hne].
  - apply remove_all_absent. cbn [files]. apply lookup_delete_eq.
  - apply elem_of_cons in Hp as [Hp | Hp]; [contradiction |]. now apply IH.
Qed.

(** Removals of distinct files that are all there succeed. *)
Lemma remove_all_ok (l : list string) (w : world) :
  NoDup l -> (forall p, p ∈ l -> is_Some (files w !! p)) ->
  fst (remove_all l w) = inr tt.
Proof.
  revert w. induction l as [|q l IH]; intros w Hnd Hex; [reflexivity |].
  apply NoDup_cons in Hnd as [Hq Hnd].
  rewrite remove_all_cons. destruct (Hex q) as [c Hc]; [left |]. rewrite Hc.
  apply IH; [exact Hnd |]. intros p Hp. cbn [files].
  rewrite lookup_delete_ne; [apply Hex; now right |].
  intros ->. contradiction.
Qed.

(** The files that [clean] may remove. *)
Lemma traineddata_not_cleaned (self : TesseractTrainer) :
  tt_dictionary_name self +:+ ".traineddata"
  ∉ clean_first self
    ++ (if word_list_given (word_list self) then [freq_dawg self] else [])
    ++ ["mfunicharset"].
Proof.
  assert (Ha : last (list_ascii_of_string (tt_dictionary_name self +:+ ".traineddata"))
               = Some "a"%char) by now apply last_char_append.
  unfold clean_first, freq_dawg. intros Hin.
  destruct (word_list_given (word_list self)); cbn [app] in Hin;
    repeat (apply elem_of_cons in Hin as [Hin | Hin];
            [rewrite Hin in Ha;
             (erewrite last_char_append in Ha by reflexivity) || cbn in Ha;
             discriminate |]);
    now apply elem_of_nil in Hin.
Qed.

(** X11: [clean] touches no file other than the ten it names, whether it
    completes or stops at a missing file, and no directory; in particular
    the trained data [{dictionary_name}.traineddata] is as it was. *)
Theorem clean_keeps_other_files (self : TesseractTrainer) (w : world) :
  (forall p,
     p ∉ clean_first self
         ++ (if word_list_given (word_list self) then [freq_dawg self] else [])
         ++ ["mfunicharset"] ->
     files (snd (clean self w)) !! p = files w !! p)
  /\ dirs (snd (clean self w)) = dirs w
  /\ files (snd (clean self w)) !! (tt_dictionary_name self +:+ ".traineddata")
     = files w !! (tt_dictionary_name self +:+ ".traineddata").
Proof.
  rewrite clean_remove_all.
  split; [intros p Hp; now apply remove_all_others |].
  split; [apply remove_all_dirs |].
  apply remove_all_others, traineddata_not_cleaned.
Qed.

Lemma clean_keeps_other_files_witness :
  files (snd (clean (ready_trainer None) trained_world)) !! "eng.freq-dawg"
  = files trained_world !! "eng.freq-dawg".
Proof.
  destruct (clean_keeps_other_files (ready_trainer None) trained_world)
    as [Hothers _].
  apply Hothers. vm_compute. intros Hin.
  repeat (apply elem_of_cons in Hin as [Hin | Hin]; [discriminate |]).
  now apply elem_of_nil in Hin.
Defined.

(** X12: when [clean] completes, every file it names is gone, and a second
    [clean] raises [OSError] at its first removal, that of [{prefix}.tr],
    and removes nothing: cleanup is not idempotent. *)
Theorem clean_twice_fails (self : TesseractTrainer) (w : world) :
  fst (clean self w) = inr tt ->
  (forall p,
     p ∈ clean_first self
         ++ (if word_list_given (word_list self) then [freq_dawg self] else [])
         ++ ["mfunicharset"] ->
     files (snd (clean self w)) !! p = None)
  /\ fst (clean self (snd (clean self w))) = inl (OSError (tt_prefix self +:+ ".tr"))
  /\ files (snd (clean self (snd (clean self w)))) = files (snd (clean self w)).
Proof.
  rewrite clean_remove_all. intros Hok.
  assert (Hgone : forall p,
     p ∈ clean_first self
         ++ (if word_list_given (word_list self) then [freq_dawg self] else [])
         ++ ["mfunicharset"] ->
     files (snd (remove_all
                   (clean_first self
                    ++ (if word_list_given (word_list self) then [freq_dawg self] else [])
                    ++ ["mfunicharset"]) w)) !! p = None)
    by (intros p Hp; now apply remove_all_gone).
  split; [exact Hgone |].
  rewrite clean_remove_all.
  set (w1 := snd (remove_all _ w)) in *.
  assert (Htr : files w1 !! (tt_prefix self +:+ ".tr") = None)
    by (apply Hgone; unfold clean_first; cbn [app]; left).
  unfold clean_first. cbn [app]. rewrite remove_all_cons, Htr. now split.
Qed.

Lemma clean_twice_fails_witness :
  fst (clean (ready_trainer (Some "words.txt"))
         (snd (clean (ready_trainer (Some "words.txt")) trained_world)))
  = inl (OSError "eng.helvetica.exp0.tr").
Proof.
  destruct (clean_twice_fails (ready_trainer (Some "words.txt")) trained_world)
    as (_ & Hfails & _); [reflexivity | exact Hfails].
Defined.

Lemma boxlines_length {Font : Type} (truetype : string -> Z -> Font)
    (getsize : Font -> string -> Z * Z) (txt : string) (pw ph sx sy : Z)
    (fname fpath : string) (fsize n : Z) (d : string) (v : bool) (disk : storage) :
  length (boxlines (fst (_fill_pages getsize
            (MultiPageTif_init truetype txt pw ph sx sy fname fpath fsize n d v) disk)))
  = length (nonspace_chars txt).
Proof.
  rewrite fill_pages_boxlines. cbn [boxlines MultiPageTif_init app text].
  set (bs := words_boxes getsize _ _).
  assert (Hc : map b_char bs = nonspace_chars txt)
    by (unfold bs; now rewrite words_boxes_chars, split_nonspace_chars).
  now rewrite <- Hc, !length_map.
Qed.

(** X13: in the trainer's pipeline the box file is written under
    [{prefix}.box], the name that [clean] removes, and it has exactly one
    line per box line: the training text has no newline left, so no box
    line is broken in two. *)
Theorem trainer_boxfile {Font : Type} (truetype : string -> Z -> Font)
    (getsize : Font -> string -> Z * Z) (d text fname fpath fprops : string)
    (fsize n : Z) (tess : string) (wl : option string) (v : bool)
    (w w' : world) (t : TesseractTrainer) :
  TesseractTrainer_init d text fname fpath fprops fsize n tess wl v w = (inr t, w') ->
  let mp' := fst (_fill_pages getsize (_generate_boxfile_mp truetype t) []) in
  fst (generate_boxfile mp') = tt_prefix t +:+ ".box"
  /\ fst (generate_boxfile mp') ∈ clean_first t
  /\ Py.split "010" (snd (generate_boxfile mp')) = boxlines mp' ++ [""]
  /\ length (boxlines mp') = length (nonspace_chars (training_text t)).
Proof.
  intros Hinit. cbv zeta.
  apply TesseractTrainer_init_inv in Hinit
    as (contents & fp & _ & _ & _ & _ & _ & _ & _ & Hnl & Ht).
  assert (Hpath : fst (generate_boxfile
                    (fst (_fill_pages getsize (_generate_boxfile_mp truetype t) [])))
                  = tt_prefix t +:+ ".box").
  { unfold generate_boxfile, boxfile_path, _fill_pages, fill_loop. cbn [fst].
    rewrite fill_words_self. cbn [prefix set_boxlines].
    unfold _generate_boxfile_mp, MultiPageTif_init. cbn [prefix].
    rewrite Ht. cbn [tt_prefix tt_dictionary_name tt_font_name tt_exp_number].
    now destruct (format_prefix d fname n) as [_ ->]. }
  split; [exact Hpath |]. split.
  { rewrite Hpath. unfold clean_first. do 2 right. left. }
  split.
  - now apply (boxfile_split_lines truetype getsize (training_text t)).
  - apply (boxlines_length truetype getsize (training_text t)).
Qed.

Lemma trainer_boxfile_witness :
  exists t : TesseractTrainer,
    fst (generate_boxfile
           (fst (_fill_pages no_getsize (_generate_boxfile_mp (fun _ _ => tt) t) [])))
    = "eng.helvetica.exp0.box".
Proof.
  eexists.
  refine (eq_trans (proj1 (trainer_boxfile (fun _ _ => tt) no_getsize
            "eng" "text.txt" "helvetica" "helvetica.ttf" "font_properties" 25 0
            "/usr/share/tessdata" None true ready_world ready_world _ _)) _).
  - vm_compute. reflexivity.
  - reflexivity.
Defined.

(** X14: the prefix tells training sessions apart when the names have no
    dot: two sessions whose dictionary and font names are free of ['.'] have
    the same prefix only if they have the same dictionary name, font name
    and experience number. *)
Theorem trainer_prefix_inj (d f d' f' : string) (n n' : Z) :
  Py.contains "." d = false -> Py.contains "." f = false ->
  Py.contains "." d' = false -> Py.contains "." f' = false ->
  trainer_prefix d f n = trainer_prefix d' f' n' ->
  d = d' /\ f = f' /\ n = n'.
Proof.
  intros Hd Hf Hd' Hf' E.
  assert (Hs : forall a b m, Py.contains "." a = false -> Py.contains "." b = false ->
             Py.split "." (trainer_prefix a b m) = [a; b; "exp" +:+ Py.str m]).
  { intros a b m Ha Hb. unfold trainer_prefix.
    rewrite (split_append_field _ _ _ Ha).
    change (b +:+ ".exp" +:+ Py.str m) with (b +:+ String "." "" +:+ "exp" +:+ Py.str m).
    rewrite (split_append_field _ _ _ Hb).
    rewrite split_no_sep; [reflexivity |].
    rewrite contains_append, str_no_char by reflexivity. reflexivity. }
  apply (f_equal (Py.split ".")) in E. rewrite !Hs in E by assumption.
  injection E as -> -> E.
  apply (f_equal parse_int) in E. rewrite !parse_int_str in E.
  injection E as ->. auto.
Qed.

Lemma trainer_prefix_inj_witness :
  trainer_prefix "eng" "helvetica" 0 = trainer_prefix "eng" "helvetica" 0
  /\ ("eng" = "eng" /\ "helvetica" = "helvetica" /\ 0 = 0).
Proof.
  split; [reflexivity |].
  apply (trainer_prefix_inj "eng" "helvetica" "eng" "helvetica" 0 0); reflexivity.
Defined.

(** With dots in the names, different sessions can share a prefix. *)
Example trainer_prefix_collision :
  trainer_prefix "eng.old" "helvetica" 0 = trainer_prefix "eng" "old.helvetica" 0.
Proof. reflexivity. Qed.

(** ** MultiPageTif._clean *)

Lemma glob_prefix_spec (prefix : string) (w : world) (p : string) :
  p ∈ glob_prefix prefix w
  <-> String.prefix prefix p = true /\ Py.contains "/" p = false
      /\ (is_Some (files w !! p) \/ p ∈ dirs w).
Proof.
  unfold glob_prefix.
  rewrite list_elem_of_filter, elem_of_elements, elem_of_union, elem_of_dom.
  tauto.
Qed.

(** X15: when no directory of the working directory has a name that starts
    with [page], [MultiPageTif._clean] completes and removes every file of
    the working directory whose name starts with [page], whether the layout
    wrote it or not; it leaves every other file and every directory. *)
Theorem clean_removes_page_files {Font : Type} (self : @MultiPageTif Font)
    (w : world) :
  indiv_page_prefix self = "page" ->
  (forall p, p ∈ dirs w -> String.prefix "page" p = true -> Py.contains "/" p = true) ->
  fst (_clean self w) = inr tt
  /\ (forall p, String.prefix "page" p = true -> Py.contains "/" p = false ->
                files (snd (_clean self w)) !! p = None)
  /\ (forall p, String.prefix "page" p = false \/ Py.contains "/" p = true ->
                files (snd (_clean self w)) !! p = files w !! p)
  /\ dirs (snd (_clean self w)) = dirs w.
Proof.
  intros Hpre Hdirs. unfold _clean. rewrite Hpre.
  assert (Hfiles : forall p, p ∈ glob_prefix "page" w -> is_Some (files w !! p)).
  { intros p Hp. apply glob_prefix_spec in Hp as (Hp1 & Hp2 & [Hf | Hd]); [exact Hf |].
    specialize (Hdirs p Hd Hp1). congruence. }
  assert (Hok : fst (remove_all (glob_prefix "page" w) w) = inr tt).
  { apply remove_all_ok; [| exact Hfiles].
    unfold glob_prefix. apply NoDup_filter, NoDup_elements. }
  split; [exact Hok |]. split; [| split].
  - intros p Hp1 Hp2. destruct (files w !! p) as [c|] eqn:Hc.
    + apply remove_all_gone; [exact Hok |].
      apply glob_prefix_spec. rewrite Hc. eauto.
    + now apply remove_all_absent.
  - intros p Hp. apply remove_all_others. intros Hin.
    apply glob_prefix_spec in Hin as (Hp1 & Hp2 & _).
    destruct Hp; congruence.
  - apply remove_all_dirs.
Qed.

Lemma clean_removes_page_files_witness :
  let w := World (<["page0.tif" := "II*"]> (<["pages.txt" := "notes"]>
                    (<["eng.box" := ""]> ∅))) ∅ [] in
  let mp := MultiPageTif_init (fun _ _ => tt) "AB CD" 3500 1024 20 20
              "helvetica" "helvetica.ttf" 25 0 "eng" true in
  fst (_clean mp w) = inr tt
  /\ files (snd (_clean mp w)) !! "pages.txt" = None
  /\ files (snd (_clean mp w)) !! "eng.box" = Some "".
Proof.
  cbv zeta.
  destruct (clean_removes_page_files
              (MultiPageTif_init (fun _ _ => tt) "AB CD" 3500 1024 20 20
                 "helvetica" "helvetica.ttf" 25 0 "eng" true)
              (World (<["page0.tif" := "II*"]> (<["pages.txt" := "notes"]>
                        (<["eng.box" := ""]> ∅))) ∅ []))
    as (Hok & Hgone & Hkept & _).
  - reflexivity.
  - intros p Hp. cbn [dirs] in Hp. now apply not_elem_of_empty in Hp.
  - split; [exact Hok |]. split.
    + apply Hgone; reflexivity.
    + rewrite Hkept; [reflexivity | left; reflexivity].
Defined.
